(** * dnf/repo.py: repository metadata synchronisation and download ledger

    A shallow embedding of [dnf/repo.py] and proofs about it.

    Conventions of the embedding:
    - Python [int]s are [Z]; time stamps and ages are whole seconds in [Z]
      (the clock is an input, never computed with);
    - Python [str] is [string]; [None] is [None] of an [option];
    - dictionaries are [gmap]s, sets are [gset]s;
    - the file system is a finite map from path to regular file, a
      directory being the set of paths below it;
    - exceptions are values of [Exc], and code that can raise returns
      in the monad [M], which threads the mutable state through a raise
      as Python does;
    - librepo, the key import and the clock are the environment: they are
      variables of the sections below. *)

From Stdlib Require Import ZArith Ascii String List Bool Lia.
From Stdlib Require QArith Qround.
From stdpp Require Import base option list gmap strings.

Open Scope Z_scope.

(** ** Python helpers *)

Module Py.

(** Truth value of a [str]: the empty string is false. *)
Definition str_truthy (s : string) : bool :=
  match s with
  | EmptyString => false
  | String _ _ => true
  end.

(** Truth value of an optional [str] ([None] and [''] are false). *)
Definition opt_truthy (o : option string) : bool :=
  match o with
  | None => false
  | Some s => str_truthy s
  end.

(** [c in s] for a one-character [c]. *)
Fixpoint char_in (c : ascii) (s : string) : bool :=
  match s with
  | EmptyString => false
  | String d s' => if Ascii.eqb c d then true else char_in c s'
  end.

(** [s.startswith(p)] *)
Definition startswith (s p : string) : bool := String.prefix p s.

(** [enumerate(l)], counting from [i]. *)
Fixpoint enumerate_from {A : Type} (i : nat) (l : list A) : list (nat * A) :=
  match l with
  | [] => []
  | x :: l' => (i, x) :: enumerate_from (S i) l'
  end.

Definition enumerate {A : Type} (l : list A) : list (nat * A) :=
  enumerate_from 0 l.

(** [string.ascii_letters] and [string.digits] *)
Definition ascii_letters : string :=
  "abcdefghijklmnopqrstuvwxyzABCDEFGHIJKLMNOPQRSTUVWXYZ".
Definition digits : string := "0123456789".

(** [s.upper()] on ASCII text *)
Definition upper_char (c : ascii) : ascii :=
  let n := nat_of_ascii c in
  if ((97 <=? n) && (n <=? 122))%nat then ascii_of_nat (n - 32) else c.

Fixpoint upper (s : string) : string :=
  match s with
  | EmptyString => EmptyString
  | String c s' => String (upper_char c) (upper s')
  end.

(** [str(x)] of an optional string, [None] printing as its name *)
Definition str_of_opt (o : option string) : string :=
  match o with
  | None => "None"
  | Some s => s
  end.

(** [os.path.join(a, b)] for two components. *)
Definition path_join (a b : string) : string :=
  if startswith b "/" then b
  else if negb (str_truthy a) then b
  else if String.eqb (String.substring (String.length a - 1) 1 a) "/"
       then a +:+ b
       else a +:+ "/" +:+ b.

End Py.

(** ** Module constants *)

Definition _METADATA_RELATIVE_DIR : string := "repodata".
Definition _METALINK_FILENAME : string := "metalink.xml".
Definition _MIRRORLIST_FILENAME : string := "mirrorlist".
Definition _RECOGNIZED_CHKSUMS : list string := ["sha512"; "sha256"].

(** ** Repository id validation *)

(** Modelled from the spec: [dnf.util.first] is not part of the sources; it
    returns the first item of an iterable, or [None] when there is none. *)
Definition first {A : Type} (l : list A) : option A :=
  match l with
  | [] => None
  | x :: _ => Some x
  end.

Definition allowed_chars : string :=
  Py.ascii_letters +:+ Py.digits +:+ "-_.:".

Definition repo_id_invalid (repo_id : string) : option nat :=
  let invalids :=
    List.map fst
      (List.filter (fun ic : nat * ascii => negb (Py.char_in (snd ic) allowed_chars))
                   (Py.enumerate (list_ascii_of_string repo_id))) in
  first invalids.

(** The character class [[A-Za-z0-9-_.:]], by character code. *)
Definition in_id_charset (c : ascii) : bool :=
  let n := nat_of_ascii c in
  ((65 <=? n) && (n <=? 90) || (97 <=? n) && (n <=? 122)
   || (48 <=? n) && (n <=? 57)
   || (n =? 45) || (n =? 95) || (n =? 46) || (n =? 58))%nat.

(** ** Credentials *)

Section Credentials.

(** [dnf.pycomp.urllib_quote]: percent-escaping, from the Python library. *)
Variable urllib_quote : string -> string.

Definition _user_pass_str (user password : option string) : option string :=
  match user with
  | None => None
  | Some u =>
      let user := urllib_quote u in
      let password :=
        match password with
        | None => ""
        | Some p => urllib_quote p
        end in
      Some (user +:+ ":" +:+ password)
  end.

End Credentials.

(** ** Exceptions and the state-and-exception monad *)

Inductive Exc : Type :=
| LibrepoException (code : Z) (msg : option string)
| DetailedLibrepoError (librepo_code : Z) (librepo_msg : option string)
                       (source_url : string)
| RepoError (msg : string)
| MetadataError (msg : string)
| IOError (path : string)
| KeyError (key : string)
| AttributeError (attr : string)
| IndexError
| TypeError
| ValueError (msg : string)
| AssertionError.

(** A computation over a mutable state [S]: it returns a value or raises,
    and in both cases leaves a state behind. *)
Definition M (S A : Type) : Type := S -> (Exc + A) * S.

Definition ret {S A : Type} (a : A) : M S A := fun s => (inr a, s).

Definition raise {S A : Type} (e : Exc) : M S A := fun s => (inl e, s).

Definition bind {S A B : Type} (c : M S A) (k : A -> M S B) : M S B :=
  fun s =>
    match c s with
    | (inr a, s') => k a s'
    | (inl e, s') => (inl e, s')
    end.

Definition get {S : Type} : M S S := fun s => (inr s, s).

Definition gets {S A : Type} (f : S -> A) : M S A := fun s => (inr (f s), s).

Definition modify {S : Type} (f : S -> S) : M S unit := fun s => (inr tt, f s).

(** [try: c except <handled>: h] *)
Definition try_except {S A : Type} (c : M S A) (handled : Exc -> bool)
    (h : Exc -> M S A) : M S A :=
  fun s =>
    match c s with
    | (inr a, s') => (inr a, s')
    | (inl e, s') => if handled e then h e s' else (inl e, s')
    end.

(** [try: c finally: f] *)
Definition try_finally {S A : Type} (c : M S A) (f : M S unit) : M S A :=
  fun s =>
    match c s with
    | (r, s') =>
        match f s' with
        | (inr _, s'') => (r, s'')
        | (inl e, s'') => (inl e, s'')
        end
    end.

Declare Scope py_scope.
Delimit Scope py_scope with py.
Notation "'let*' x ':=' c 'in' k" := (bind c (fun x => k))
  (at level 10, x name, c at level 100, k at level 200) : py_scope.
Notation "c '>>' k" := (bind c (fun _ => k))
  (at level 60, right associativity) : py_scope.
Open Scope py_scope.

(** [for x in l: body x] *)
Fixpoint for_each {S A : Type} (l : list A) (body : A -> M S unit) : M S unit :=
  match l with
  | [] => ret tt
  | x :: l' => body x >> for_each l' body
  end.

(** [[f x for x in l]] with a fallible [f] *)
Fixpoint map_M {S A B : Type} (f : A -> M S B) (l : list A) : M S (list B) :=
  match l with
  | [] => ret []
  | x :: l' =>
      let* y := f x in
      let* ys := map_M f l' in
      ret (y :: ys)
  end.

(** ** The file system *)

Record File : Type := mkFile { f_data : string; f_mtime : Z }.

(** A path [p] is in the tree rooted at [d]: it is [d] or lies below it. *)
Definition under (d p : string) : bool :=
  String.eqb d p || Py.startswith p (d +:+ "/").

(** Modelled from the spec: [dnf.util.rm_rf] is not part of the sources; it
    removes a file or a whole directory tree, and ignores a missing one. *)
Definition rm_rf (path : string) (fs : gmap string File) : gmap string File :=
  filter (fun kv => under path (fst kv) = false) fs.

(** Modelled from the spec: [dnf.util.clear_dir] is not part of the sources;
    it removes everything below a directory and keeps the directory. *)
Definition clear_dir (path : string) (fs : gmap string File) : gmap string File :=
  filter (fun kv => Py.startswith (fst kv) (path +:+ "/") = false) fs.

(** A tree [src] exists when some path is in it. *)
Definition tree_exists (src : string) (fs : gmap string File) : bool :=
  bool_decide (filter (fun kv => under src (fst kv) = true) fs ≠ ∅).

(** The path [p] of the tree [src], once the tree is renamed to [dst]. *)
Definition rebase (src dst p : string) : string :=
  dst +:+ String.substring (String.length src)
                           (String.length p - String.length src) p.

(** [shutil.move(src, dst)] onto a destination that does not exist: the tree
    is renamed.  [None] when there is nothing at [src]. *)
Definition shutil_move (src dst : string) (fs : gmap string File)
    : option (gmap string File) :=
  if tree_exists src fs then
    Some (map_fold
            (fun p f acc =>
               if under src p then <[rebase src dst p := f]> acc else acc)
            (rm_rf src fs) fs)
  else None.

(** Modelled from the spec: [dnf.util.touch(path, no_create=True)] is not
    part of the sources; it sets the modification time of an existing file to
    the current time and creates nothing. *)
Definition touch (path : string) (now : Z) (fs : gmap string File)
    : gmap string File :=
  match fs !! path with
  | Some f => <[path := mkFile (f_data f) now]> fs
  | None => fs
  end.

(** Modelled from the spec: [dnf.util.file_timestamp] is not part of the
    sources; it is the modification time of a file, and fails with [OSError]
    ([None] here) when the file cannot be examined. *)
Definition file_timestamp (path : string) (fs : gmap string File) : option Z :=
  f_mtime <$> fs !! path.

(** ** Transfer handles *)

Inductive IpResolve : Type := IPRESOLVE_V4 | IPRESOLVE_V6.

(** The parsed metalink of a handle; only its hashes are read here:
    pairs of an algorithm name and a hexadecimal digest. *)
Record Metalink : Type := mkMetalink { ml_hashes : list (string * string) }.

(** [_Handle], a [librepo.Handle]: the options this module sets, and the
    information librepo fills in when the handle is performed
    ([h_metalink], [h_mirrors]). *)
Record Handle : Type := mkHandle {
  h_gpgcheck : bool;
  h_maxmirrortries : Z;
  h_interruptible : bool;
  h_yumdlist : list string;
  h_varsub : list (string * string);
  h_destdir : option string;
  h_urls : list string;
  h_local : bool;
  h_mirrorlist : option string;
  h_fastestmirror : option bool;
  h_fastestmirrorcache : option string;
  h_ipresolve : option IpResolve;
  h_userpwd : option string;
  h_hmfcb : bool;
  h_progresscb : bool;
  h_fastestmirrorcb : bool;
  h_maxspeed : Z;
  h_proxy : option string;
  h_lowspeedlimit : Z;
  h_lowspeedtime : Z;
  h_connecttimeout : Z;
  h_proxyuserpwd : option string;
  h_sslverifypeer : bool;
  h_sslverifyhost : bool;
  h_fetchmirrors : bool;
  h_metalink : option Metalink;
  h_mirrors : list string
}.

(** Attribute assignment on a handle, one function per attribute. *)

Definition set_gpgcheck (v : bool) (h : Handle) : Handle :=
  mkHandle v (h_maxmirrortries h) (h_interruptible h) (h_yumdlist h)
    (h_varsub h) (h_destdir h) (h_urls h) (h_local h) (h_mirrorlist h)
    (h_fastestmirror h) (h_fastestmirrorcache h) (h_ipresolve h)
    (h_userpwd h) (h_hmfcb h) (h_progresscb h) (h_fastestmirrorcb h)
    (h_maxspeed h) (h_proxy h) (h_lowspeedlimit h) (h_lowspeedtime h)
    (h_connecttimeout h) (h_proxyuserpwd h) (h_sslverifypeer h)
    (h_sslverifyhost h) (h_fetchmirrors h) (h_metalink h) (h_mirrors h).

Definition set_maxmirrortries (v : Z) (h : Handle) : Handle :=
  mkHandle (h_gpgcheck h) v (h_interruptible h) (h_yumdlist h) (h_varsub h)
    (h_destdir h) (h_urls h) (h_local h) (h_mirrorlist h)
    (h_fastestmirror h) (h_fastestmirrorcache h) (h_ipresolve h)
    (h_userpwd h) (h_hmfcb h) (h_progresscb h) (h_fastestmirrorcb h)
    (h_maxspeed h) (h_proxy h) (h_lowspeedlimit h) (h_lowspeedtime h)
    (h_connecttimeout h) (h_proxyuserpwd h) (h_sslverifypeer h)
    (h_sslverifyhost h) (h_fetchmirrors h) (h_metalink h) (h_mirrors h).

Definition set_interruptible (v : bool) (h : Handle) : Handle :=
  mkHandle (h_gpgcheck h) (h_maxmirrortries h) v (h_yumdlist h) (h_varsub h)
    (h_destdir h) (h_urls h) (h_local h) (h_mirrorlist h)
    (h_fastestmirror h) (h_fastestmirrorcache h) (h_ipresolve h)
    (h_userpwd h) (h_hmfcb h) (h_progresscb h) (h_fastestmirrorcb h)
    (h_maxspeed h) (h_proxy h) (h_lowspeedlimit h) (h_lowspeedtime h)
    (h_connecttimeout h) (h_proxyuserpwd h) (h_sslverifypeer h)
    (h_sslverifyhost h) (h_fetchmirrors h) (h_metalink h) (h_mirrors h).

Definition set_yumdlist (v : list string) (h : Handle) : Handle :=
  mkHandle (h_gpgcheck h) (h_maxmirrortries h) (h_interruptible h) v
    (h_varsub h) (h_destdir h) (h_urls h) (h_local h) (h_mirrorlist h)
    (h_fastestmirror h) (h_fastestmirrorcache h) (h_ipresolve h)
    (h_userpwd h) (h_hmfcb h) (h_progresscb h) (h_fastestmirrorcb h)
    (h_maxspeed h) (h_proxy h) (h_lowspeedlimit h) (h_lowspeedtime h)
    (h_connecttimeout h) (h_proxyuserpwd h) (h_sslverifypeer h)
    (h_sslverifyhost h) (h_fetchmirrors h) (h_metalink h) (h_mirrors h).

Definition set_varsub (v : list (string * string)) (h : Handle) : Handle :=
  mkHandle (h_gpgcheck h) (h_maxmirrortries h) (h_interruptible h)
    (h_yumdlist h) v (h_destdir h) (h_urls h) (h_local h) (h_mirrorlist h)
    (h_fastestmirror h) (h_fastestmirrorcache h) (h_ipresolve h)
    (h_userpwd h) (h_hmfcb h) (h_progresscb h) (h_fastestmirrorcb h)
    (h_maxspeed h) (h_proxy h) (h_lowspeedlimit h) (h_lowspeedtime h)
    (h_connecttimeout h) (h_proxyuserpwd h) (h_sslverifypeer h)
    (h_sslverifyhost h) (h_fetchmirrors h) (h_metalink h) (h_mirrors h).

Definition set_destdir (v : option string) (h : Handle) : Handle :=
  mkHandle (h_gpgcheck h) (h_maxmirrortries h) (h_interruptible h)
    (h_yumdlist h) (h_varsub h) v (h_urls h) (h_local h) (h_mirrorlist h)
    (h_fastestmirror h) (h_fastestmirrorcache h) (h_ipresolve h)
    (h_userpwd h) (h_hmfcb h) (h_progresscb h) (h_fastestmirrorcb h)
    (h_maxspeed h) (h_proxy h) (h_lowspeedlimit h) (h_lowspeedtime h)
    (h_connecttimeout h) (h_proxyuserpwd h) (h_sslverifypeer h)
    (h_sslverifyhost h) (h_fetchmirrors h) (h_metalink h) (h_mirrors h).

Definition set_urls (v : list string) (h : Handle) : Handle :=
  mkHandle (h_gpgcheck h) (h_maxmirrortries h) (h_interruptible h)
    (h_yumdlist h) (h_varsub h) (h_destdir h) v (h_local h) (h_mirrorlist h)
    (h_fastestmirror h) (h_fastestmirrorcache h) (h_ipresolve h)
    (h_userpwd h) (h_hmfcb h) (h_progresscb h) (h_fastestmirrorcb h)
    (h_maxspeed h) (h_proxy h) (h_lowspeedlimit h) (h_lowspeedtime h)
    (h_connecttimeout h) (h_proxyuserpwd h) (h_sslverifypeer h)
    (h_sslverifyhost h) (h_fetchmirrors h) (h_metalink h) (h_mirrors h).

Definition set_local (v : bool) (h : Handle) : Handle :=
  mkHandle (h_gpgcheck h) (h_maxmirrortries h) (h_interruptible h)
    (h_yumdlist h) (h_varsub h) (h_destdir h) (h_urls h) v (h_mirrorlist h)
    (h_fastestmirror h) (h_fastestmirrorcache h) (h_ipresolve h)
    (h_userpwd h) (h_hmfcb h) (h_progresscb h) (h_fastestmirrorcb h)
    (h_maxspeed h) (h_proxy h) (h_lowspeedlimit h) (h_lowspeedtime h)
    (h_connecttimeout h) (h_proxyuserpwd h) (h_sslverifypeer h)
    (h_sslverifyhost h) (h_fetchmirrors h) (h_metalink h) (h_mirrors h).

Definition set_mirrorlist (v : option string) (h : Handle) : Handle :=
  mkHandle (h_gpgcheck h) (h_maxmirrortries h) (h_interruptible h)
    (h_yumdlist h) (h_varsub h) (h_destdir h) (h_urls h) (h_local h) v
    (h_fastestmirror h) (h_fastestmirrorcache h) (h_ipresolve h)
    (h_userpwd h) (h_hmfcb h) (h_progresscb h) (h_fastestmirrorcb h)
    (h_maxspeed h) (h_proxy h) (h_lowspeedlimit h) (h_lowspeedtime h)
    (h_connecttimeout h) (h_proxyuserpwd h) (h_sslverifypeer h)
    (h_sslverifyhost h) (h_fetchmirrors h) (h_metalink h) (h_mirrors h).

Definition set_fastestmirror (v : option bool) (h : Handle) : Handle :=
  mkHandle (h_gpgcheck h) (h_maxmirrortries h) (h_interruptible h)
    (h_yumdlist h) (h_varsub h) (h_destdir h) (h_urls h) (h_local h)
    (h_mirrorlist h) v (h_fastestmirrorcache h) (h_ipresolve h)
    (h_userpwd h) (h_hmfcb h) (h_progresscb h) (h_fastestmirrorcb h)
    (h_maxspeed h) (h_proxy h) (h_lowspeedlimit h) (h_lowspeedtime h)
    (h_connecttimeout h) (h_proxyuserpwd h) (h_sslverifypeer h)
    (h_sslverifyhost h) (h_fetchmirrors h) (h_metalink h) (h_mirrors h).

Definition set_fastestmirrorcache (v : option string) (h : Handle) : Handle :=
  mkHandle (h_gpgcheck h) (h_maxmirrortries h) (h_interruptible h)
    (h_yumdlist h) (h_varsub h) (h_destdir h) (h_urls h) (h_local h)
    (h_mirrorlist h) (h_fastestmirror h) v (h_ipresolve h) (h_userpwd h)
    (h_hmfcb h) (h_progresscb h) (h_fastestmirrorcb h) (h_maxspeed h)
    (h_proxy h) (h_lowspeedlimit h) (h_lowspeedtime h) (h_connecttimeout h)
    (h_proxyuserpwd h) (h_sslverifypeer h) (h_sslverifyhost h)
    (h_fetchmirrors h) (h_metalink h) (h_mirrors h).

Definition set_ipresolve (v : option IpResolve) (h : Handle) : Handle :=
  mkHandle (h_gpgcheck h) (h_maxmirrortries h) (h_interruptible h)
    (h_yumdlist h) (h_varsub h) (h_destdir h) (h_urls h) (h_local h)
    (h_mirrorlist h) (h_fastestmirror h) (h_fastestmirrorcache h) v
    (h_userpwd h) (h_hmfcb h) (h_progresscb h) (h_fastestmirrorcb h)
    (h_maxspeed h) (h_proxy h) (h_lowspeedlimit h) (h_lowspeedtime h)
    (h_connecttimeout h) (h_proxyuserpwd h) (h_sslverifypeer h)
    (h_sslverifyhost h) (h_fetchmirrors h) (h_metalink h) (h_mirrors h).

Definition set_userpwd (v : option string) (h : Handle) : Handle :=
  mkHandle (h_gpgcheck h) (h_maxmirrortries h) (h_interruptible h)
    (h_yumdlist h) (h_varsub h) (h_destdir h) (h_urls h) (h_local h)
    (h_mirrorlist h) (h_fastestmirror h) (h_fastestmirrorcache h)
    (h_ipresolve h) v (h_hmfcb h) (h_progresscb h) (h_fastestmirrorcb h)
    (h_maxspeed h) (h_proxy h) (h_lowspeedlimit h) (h_lowspeedtime h)
    (h_connecttimeout h) (h_proxyuserpwd h) (h_sslverifypeer h)
    (h_sslverifyhost h) (h_fetchmirrors h) (h_metalink h) (h_mirrors h).

Definition set_hmfcb (v : bool) (h : Handle) : Handle :=
  mkHandle (h_gpgcheck h) (h_maxmirrortries h) (h_interruptible h)
    (h_yumdlist h) (h_varsub h) (h_destdir h) (h_urls h) (h_local h)
    (h_mirrorlist h) (h_fastestmirror h) (h_fastestmirrorcache h)
    (h_ipresolve h) (h_userpwd h) v (h_progresscb h) (h_fastestmirrorcb h)
    (h_maxspeed h) (h_proxy h) (h_lowspeedlimit h) (h_lowspeedtime h)
    (h_connecttimeout h) (h_proxyuserpwd h) (h_sslverifypeer h)
    (h_sslverifyhost h) (h_fetchmirrors h) (h_metalink h) (h_mirrors h).

Definition set_progresscb (v : bool) (h : Handle) : Handle :=
  mkHandle (h_gpgcheck h) (h_maxmirrortries h) (h_interruptible h)
    (h_yumdlist h) (h_varsub h) (h_destdir h) (h_urls h) (h_local h)
    (h_mirrorlist h) (h_fastestmirror h) (h_fastestmirrorcache h)
    (h_ipresolve h) (h_userpwd h) (h_hmfcb h) v (h_fastestmirrorcb h)
    (h_maxspeed h) (h_proxy h) (h_lowspeedlimit h) (h_lowspeedtime h)
    (h_connecttimeout h) (h_proxyuserpwd h) (h_sslverifypeer h)
    (h_sslverifyhost h) (h_fetchmirrors h) (h_metalink h) (h_mirrors h).

Definition set_fastestmirrorcb (v : bool) (h : Handle) : Handle :=
  mkHandle (h_gpgcheck h) (h_maxmirrortries h) (h_interruptible h)
    (h_yumdlist h) (h_varsub h) (h_destdir h) (h_urls h) (h_local h)
    (h_mirrorlist h) (h_fastestmirror h) (h_fastestmirrorcache h)
    (h_ipresolve h) (h_userpwd h) (h_hmfcb h) (h_progresscb h) v
    (h_maxspeed h) (h_proxy h) (h_lowspeedlimit h) (h_lowspeedtime h)
    (h_connecttimeout h) (h_proxyuserpwd h) (h_sslverifypeer h)
    (h_sslverifyhost h) (h_fetchmirrors h) (h_metalink h) (h_mirrors h).

Definition set_maxspeed (v : Z) (h : Handle) : Handle :=
  mkHandle (h_gpgcheck h) (h_maxmirrortries h) (h_interruptible h)
    (h_yumdlist h) (h_varsub h) (h_destdir h) (h_urls h) (h_local h)
    (h_mirrorlist h) (h_fastestmirror h) (h_fastestmirrorcache h)
    (h_ipresolve h) (h_userpwd h) (h_hmfcb h) (h_progresscb h)
    (h_fastestmirrorcb h) v (h_proxy h) (h_lowspeedlimit h)
    (h_lowspeedtime h) (h_connecttimeout h) (h_proxyuserpwd h)
    (h_sslverifypeer h) (h_sslverifyhost h) (h_fetchmirrors h)
    (h_metalink h) (h_mirrors h).

Definition set_proxy (v : option string) (h : Handle) : Handle :=
  mkHandle (h_gpgcheck h) (h_maxmirrortries h) (h_interruptible h)
    (h_yumdlist h) (h_varsub h) (h_destdir h) (h_urls h) (h_local h)
    (h_mirrorlist h) (h_fastestmirror h) (h_fastestmirrorcache h)
    (h_ipresolve h) (h_userpwd h) (h_hmfcb h) (h_progresscb h)
    (h_fastestmirrorcb h) (h_maxspeed h) v (h_lowspeedlimit h)
    (h_lowspeedtime h) (h_connecttimeout h) (h_proxyuserpwd h)
    (h_sslverifypeer h) (h_sslverifyhost h) (h_fetchmirrors h)
    (h_metalink h) (h_mirrors h).

Definition set_lowspeedlimit (v : Z) (h : Handle) : Handle :=
  mkHandle (h_gpgcheck h) (h_maxmirrortries h) (h_interruptible h)
    (h_yumdlist h) (h_varsub h) (h_destdir h) (h_urls h) (h_local h)
    (h_mirrorlist h) (h_fastestmirror h) (h_fastestmirrorcache h)
    (h_ipresolve h) (h_userpwd h) (h_hmfcb h) (h_progresscb h)
    (h_fastestmirrorcb h) (h_maxspeed h) (h_proxy h) v (h_lowspeedtime h)
    (h_connecttimeout h) (h_proxyuserpwd h) (h_sslverifypeer h)
    (h_sslverifyhost h) (h_fetchmirrors h) (h_metalink h) (h_mirrors h).

Definition set_lowspeedtime (v : Z) (h : Handle) : Handle :=
  mkHandle (h_gpgcheck h) (h_maxmirrortries h) (h_interruptible h)
    (h_yumdlist h) (h_varsub h) (h_destdir h) (h_urls h) (h_local h)
    (h_mirrorlist h) (h_fastestmirror h) (h_fastestmirrorcache h)
    (h_ipresolve h) (h_userpwd h) (h_hmfcb h) (h_progresscb h)
    (h_fastestmirrorcb h) (h_maxspeed h) (h_proxy h) (h_lowspeedlimit h) v
    (h_connecttimeout h) (h_proxyuserpwd h) (h_sslverifypeer h)
    (h_sslverifyhost h) (h_fetchmirrors h) (h_metalink h) (h_mirrors h).

Definition set_connecttimeout (v : Z) (h : Handle) : Handle :=
  mkHandle (h_gpgcheck h) (h_maxmirrortries h) (h_interruptible h)
    (h_yumdlist h) (h_varsub h) (h_destdir h) (h_urls h) (h_local h)
    (h_mirrorlist h) (h_fastestmirror h) (h_fastestmirrorcache h)
    (h_ipresolve h) (h_userpwd h) (h_hmfcb h) (h_progresscb h)
    (h_fastestmirrorcb h) (h_maxspeed h) (h_proxy h) (h_lowspeedlimit h)
    (h_lowspeedtime h) v (h_proxyuserpwd h) (h_sslverifypeer h)
    (h_sslverifyhost h) (h_fetchmirrors h) (h_metalink h) (h_mirrors h).

Definition set_proxyuserpwd (v : option string) (h : Handle) : Handle :=
  mkHandle (h_gpgcheck h) (h_maxmirrortries h) (h_interruptible h)
    (h_yumdlist h) (h_varsub h) (h_destdir h) (h_urls h) (h_local h)
    (h_mirrorlist h) (h_fastestmirror h) (h_fastestmirrorcache h)
    (h_ipresolve h) (h_userpwd h) (h_hmfcb h) (h_progresscb h)
    (h_fastestmirrorcb h) (h_maxspeed h) (h_proxy h) (h_lowspeedlimit h)
    (h_lowspeedtime h) (h_connecttimeout h) v (h_sslverifypeer h)
    (h_sslverifyhost h) (h_fetchmirrors h) (h_metalink h) (h_mirrors h).

Definition set_sslverifypeer (v : bool) (h : Handle) : Handle :=
  mkHandle (h_gpgcheck h) (h_maxmirrortries h) (h_interruptible h)
    (h_yumdlist h) (h_varsub h) (h_destdir h) (h_urls h) (h_local h)
    (h_mirrorlist h) (h_fastestmirror h) (h_fastestmirrorcache h)
    (h_ipresolve h) (h_userpwd h) (h_hmfcb h) (h_progresscb h)
    (h_fastestmirrorcb h) (h_maxspeed h) (h_proxy h) (h_lowspeedlimit h)
    (h_lowspeedtime h) (h_connecttimeout h) (h_proxyuserpwd h) v
    (h_sslverifyhost h) (h_fetchmirrors h) (h_metalink h) (h_mirrors h).

Definition set_sslverifyhost (v : bool) (h : Handle) : Handle :=
  mkHandle (h_gpgcheck h) (h_maxmirrortries h) (h_interruptible h)
    (h_yumdlist h) (h_varsub h) (h_destdir h) (h_urls h) (h_local h)
    (h_mirrorlist h) (h_fastestmirror h) (h_fastestmirrorcache h)
    (h_ipresolve h) (h_userpwd h) (h_hmfcb h) (h_progresscb h)
    (h_fastestmirrorcb h) (h_maxspeed h) (h_proxy h) (h_lowspeedlimit h)
    (h_lowspeedtime h) (h_connecttimeout h) (h_proxyuserpwd h)
    (h_sslverifypeer h) v (h_fetchmirrors h) (h_metalink h) (h_mirrors h).

Definition set_fetchmirrors (v : bool) (h : Handle) : Handle :=
  mkHandle (h_gpgcheck h) (h_maxmirrortries h) (h_interruptible h)
    (h_yumdlist h) (h_varsub h) (h_destdir h) (h_urls h) (h_local h)
    (h_mirrorlist h) (h_fastestmirror h) (h_fastestmirrorcache h)
    (h_ipresolve h) (h_userpwd h) (h_hmfcb h) (h_progresscb h)
    (h_fastestmirrorcb h) (h_maxspeed h) (h_proxy h) (h_lowspeedlimit h)
    (h_lowspeedtime h) (h_connecttimeout h) (h_proxyuserpwd h)
    (h_sslverifypeer h) (h_sslverifyhost h) v (h_metalink h) (h_mirrors h).

Definition set_metalink (v : option Metalink) (h : Handle) : Handle :=
  mkHandle (h_gpgcheck h) (h_maxmirrortries h) (h_interruptible h)
    (h_yumdlist h) (h_varsub h) (h_destdir h) (h_urls h) (h_local h)
    (h_mirrorlist h) (h_fastestmirror h) (h_fastestmirrorcache h)
    (h_ipresolve h) (h_userpwd h) (h_hmfcb h) (h_progresscb h)
    (h_fastestmirrorcb h) (h_maxspeed h) (h_proxy h) (h_lowspeedlimit h)
    (h_lowspeedtime h) (h_connecttimeout h) (h_proxyuserpwd h)
    (h_sslverifypeer h) (h_sslverifyhost h) (h_fetchmirrors h) v
    (h_mirrors h).

Definition set_mirrors (v : list string) (h : Handle) : Handle :=
  mkHandle (h_gpgcheck h) (h_maxmirrortries h) (h_interruptible h)
    (h_yumdlist h) (h_varsub h) (h_destdir h) (h_urls h) (h_local h)
    (h_mirrorlist h) (h_fastestmirror h) (h_fastestmirrorcache h)
    (h_ipresolve h) (h_userpwd h) (h_hmfcb h) (h_progresscb h)
    (h_fastestmirrorcb h) (h_maxspeed h) (h_proxy h) (h_lowspeedlimit h)
    (h_lowspeedtime h) (h_connecttimeout h) (h_proxyuserpwd h)
    (h_sslverifypeer h) (h_sslverifyhost h) (h_fetchmirrors h)
    (h_metalink h) v.

(** The result of a performed handle: [yum_repo] maps a metadata type to
    the path of its file, [yum_repomd] holds the descriptor fields. *)
Record Result : Type := mkResult {
  yum_repo : gmap string string;
  yum_repomd : gmap string string
}.

(** What [librepo.Handle.perform] hands back on success: the files it wrote
    (names relative to the destination directory), the result, and the handle
    information. *)
Record Fetched : Type := mkFetched {
  fetched_files : list (string * string);
  fetched_result : Result;
  fetched_metalink : option Metalink;
  fetched_mirrors : list string
}.

(** ** Packages and payloads *)

(** A package, as far as this module reads it. *)
Record Package : Type := mkPackage {
  pkg_name : string;
  downloadsize : Z;
  location : string;
  baseurl_of : option string;
  returnIdSum : string * string
}.

#[export] Instance Package_eq_dec : EqDecision Package.
Proof. solve_decision. Defined.

#[export] Instance Package_countable : Countable Package.
Proof.
  refine (inj_countable'
            (fun p => (pkg_name p, downloadsize p, location p, baseurl_of p,
                       returnIdSum p))
            (fun t => match t with
                      | (n, d, l, b, c) => mkPackage n d l b c
                      end) _).
  intros []; reflexivity.
Defined.

(** [RPMPayload], a [PackagePayload]; the progress object is display only. *)
Record RPMPayload : Type := mkRPMPayload { pkg : Package }.

(** The interface [update_saving] relies on. *)
Class PayloadSizes (P : Type) : Type := {
  payload_pkg : P -> Package;
  download_size : P -> Z;
  full_size : P -> Z
}.

(** [RPMPayload.download_size] and [PackagePayload.full_size] *)
#[export] Instance RPMPayload_sizes : PayloadSizes RPMPayload := {|
  payload_pkg := pkg;
  download_size := fun self => downloadsize (pkg self);
  full_size := fun self => downloadsize (pkg self)
|}.




Record PackageTarget : Type := mkPackageTarget {
  tgt_handle : Handle;
  tgt_dest : string;
  tgt_resume : bool;
  tgt_cbdata : RPMPayload;
  tgt_relative_url : string;
  tgt_checksum_type : Z;
  tgt_checksum : string;
  tgt_expectedsize : Z;
  tgt_base_url : option string;
  tgt_err : option string
}.

(** Keys of the error dictionaries: packages, and the string [''] of the
    synthesized entry. *)
Abbreviation ErrKey := (string + Package)%type.
Abbreviation ErrDict := (gmap (string + Package) (list string)).

(** ** The download-error ledger *)

(** Dictionaries are objects: the store maps a reference to the dictionary
    it denotes, so that two names of one dictionary see each other's
    updates and a freshly built dictionary is seen by nobody else. *)
Abbreviation Heap := (list ErrDict).

Definition new_dict (d : ErrDict) : M Heap nat :=
  fun h => (inr (length h), h ++ [d]).

Definition read_dict (l : nat) : M Heap ErrDict :=
  gets (fun h : Heap => default ∅ (h !! l)).

Definition write_dict (l : nat) (d : ErrDict) : M Heap unit :=
  modify (fun h : Heap => <[l := d]> h).

(** [d[k] = v] on the dictionary at [l] *)
Definition dict_setitem (l : nat) (k : ErrKey) (v : list string) : M Heap unit :=
  let* d := read_dict l in
  write_dict l (<[k := v]> d).

Definition dict_truthy (d : ErrDict) : bool := bool_decide (d ≠ ∅).

Record _DownloadErrors : Type := mkDownloadErrors {
  _irrecoverable : nat;
  _recoverable : nat;
  fatal : option string;
  skipped : gset Package
}.

Definition _DownloadErrors__init__ : M Heap _DownloadErrors :=
  let* i := new_dict ∅ in
  let* r := new_dict ∅ in
  ret (mkDownloadErrors i r None ∅).

(** The property [irrecoverable]: a reference to the dictionary it returns. *)
Definition irrecoverable (self : _DownloadErrors) : M Heap nat :=
  let* d := read_dict (_irrecoverable self) in
  if dict_truthy d then ret (_irrecoverable self)
  else
    match fatal self with
    | Some msg =>
        if Py.str_truthy msg then new_dict {[ inl "" := [msg] ]}
        else new_dict ∅
    | None => new_dict ∅
    end.

Definition recoverable (self : _DownloadErrors) : M Heap nat :=
  ret (_recoverable self).

Definition set_recoverable (self : _DownloadErrors) (new_dct : nat)
    : _DownloadErrors :=
  mkDownloadErrors (_irrecoverable self) new_dct (fatal self) (skipped self).

Definition set_fatal (self : _DownloadErrors) (msg : option string)
    : _DownloadErrors :=
  mkDownloadErrors (_irrecoverable self) (_recoverable self) msg (skipped self).

(** [self.skipped.add(pkg)] *)
Definition skipped_add (self : _DownloadErrors) (p : Package)
    : _DownloadErrors :=
  mkDownloadErrors (_irrecoverable self) (_recoverable self) (fatal self)
                   ({[ p ]} ∪ skipped self).


(** What a consumer reads through [errs.irrecoverable]. *)
Definition irrecoverable_view (self : _DownloadErrors) : M Heap ErrDict :=
  let* l := irrecoverable self in
  read_dict l.

(** ** Batch download *)

(** [dnf.drpm.DeltaInfo], as far as it is used here: its [err] dictionary,
    which only this call and the delta engine write. *)
Record DeltaInfo : Type := mkDeltaInfo { drpm_err : ErrDict }.

(** What one call of the batch primitive and of the delta engine leaves
    behind: the [err] of every target (by position), the exception the
    primitive raised, if any, and the errors the delta engine collected. *)
Record BatchOutcome : Type := mkBatchOutcome {
  bo_err : nat -> option string;
  bo_raised : option (Z * option string);
  bo_drpm_err : ErrDict
}.

Definition set_err (tgt : PackageTarget) (e : option string) : PackageTarget :=
  mkPackageTarget (tgt_handle tgt) (tgt_dest tgt) (tgt_resume tgt)
    (tgt_cbdata tgt) (tgt_relative_url tgt) (tgt_checksum_type tgt)
    (tgt_checksum tgt) (tgt_expectedsize tgt) (tgt_base_url tgt) e.

Fixpoint foldl_M {S A B : Type} (f : B -> A -> M S B) (l : list A) (b : B)
    : M S B :=
  match l with
  | [] => ret b
  | x :: l' => let* b' := f b x in foldl_M f l' b'
  end.

Section Download.

(** The repository side of a package: [pkg.repo.get_handle()] and
    [pkg.repo.pkgdir]. *)
Variable get_handle : Package -> Exc + Handle.
Variable pkgdir_of : Package -> string.

(** [getattr(librepo, NAME, None)] and [librepo.CHECKSUM_UNKNOWN] *)
Variable librepo_attr : string -> option Z.
Variable CHECKSUM_UNKNOWN : Z.

(** [librepo.download_packages(targets, failfast=True)] followed by
    [drpm.wait()] *)
Variable librepo_download_packages : list PackageTarget -> BatchOutcome.

(** [PackagePayload.librepo_target], with [RPMPayload._target_params] *)
Definition librepo_target (self : RPMPayload) : M Heap PackageTarget :=
  let pkg := pkg self in
  let pkgdir := pkgdir_of pkg in
  match get_handle pkg with
  | inl e => raise e
  | inr handle =>
      let '(ctype, csum) := returnIdSum pkg in
      let ctype_code :=
        default CHECKSUM_UNKNOWN (librepo_attr (Py.upper ctype)) in
      ret (mkPackageTarget handle pkgdir true self (location pkg) ctype_code
             csum (downloadsize pkg) (baseurl_of pkg) None)
  end.

(** One round of the loop over the targets. *)
Definition process_target (errs : _DownloadErrors) (tgt : PackageTarget)
    : M Heap _DownloadErrors :=
  match tgt_err tgt with
  | None => ret errs
  | Some err =>
      if Py.startswith err "Not finished" then ret errs
      else
        let payload := tgt_cbdata tgt in
        let pkg := pkg payload in
        if String.eqb err "Already downloaded" then ret (skipped_add errs pkg)
        else
          (* errs.irrecoverable[pkg] = [err] *)
          let* d := irrecoverable errs in
          dict_setitem d (inr pkg) [err] >>
          ret errs
  end.

Definition download_payloads (payloads : list RPMPayload) (drpm : DeltaInfo)
    : M Heap _DownloadErrors :=
  let drpm := mkDeltaInfo ∅ in
  let* targets := map_M librepo_target payloads in
  let* errs := _DownloadErrors__init__ in
  let outcome := librepo_download_packages targets in
  let targets := imap (fun i tgt => set_err tgt (bo_err outcome i)) targets in
  let errs :=
    match bo_raised outcome with
    | Some (_, msg) =>
        set_fatal errs
          (Some (if Py.opt_truthy msg then Py.str_of_opt msg
                 else "<unspecified librepo error>"))
    | None => errs
    end in
  let drpm := mkDeltaInfo (bo_drpm_err outcome) in
  let* rec := new_dict (drpm_err drpm) in
  let errs := set_recoverable errs rec in
  foldl_M process_target targets errs.

End Download.

Definition update_saving {P : Type} `{PayloadSizes P} (saving : Z * Z)
    (payloads : list P) (errs : ErrDict) : Z * Z :=
  fold_left
    (fun (acc : Z * Z) pload =>
       let '(real, full) := acc in
       let pkg := payload_pkg pload in
       if bool_decide (is_Some (errs !! inr pkg))
       then (real + download_size pload, full)
       else (real + download_size pload, full + full_size pload))
    payloads saving.

(** ** The world outside the repository object *)

(** The file system, the clock and the number of calls made to the transfer
    engine so far (so that the engine may answer two equal requests
    differently). *)
Record World : Type := mkWorld {
  w_fs : gmap string File;
  w_now : Z;
  w_ticks : nat
}.

Definition with_fs (f : gmap string File -> gmap string File) (w : World)
    : World :=
  mkWorld (f (w_fs w)) (w_now w) (w_ticks w).

Definition tick (w : World) : World :=
  mkWorld (w_fs w) (w_now w) (S (w_ticks w)).

(** Files written below a directory at the current time. *)
Definition write_files (dir : string) (files : list (string * string))
    (now : Z) (fs : gmap string File) : gmap string File :=
  foldr (fun nf acc => <[dir +:+ "/" +:+ fst nf := mkFile (snd nf) now]> acc)
        fs files.

(** ** Metadata snapshots *)

Module Metadata.

Record t : Type := mk {
  fresh : bool;
  repo_dct : gmap string string;
  repomd_dct : gmap string string;
  _mirrors : list string
}.

Definition __init__ (res : Result) (handle : Handle) : t :=
  mk false (yum_repo res) (yum_repomd res) (h_mirrors handle).

Definition set_fresh (v : bool) (self : t) : t :=
  mk v (repo_dct self) (repomd_dct self) (_mirrors self).

Definition file_timestamp (self : t) (what : string) (w : World) : Exc + Z :=
  match repo_dct self !! what with
  | None => inl (KeyError what)
  | Some fn =>
      match file_timestamp fn (w_fs w) with
      | Some ts => inr ts
      | None => inl (MetadataError fn)
      end
  end.

Definition file_age (self : t) (what : string) (w : World) : Exc + Z :=
  match file_timestamp self what w with
  | inl e => inl e
  | inr ts => inr (w_now w - ts)
  end.

Definition age (self : t) (w : World) : Exc + Z := file_age self "primary" w.

Definition comps_fn (self : t) : option string :=
  match repo_dct self !! "group_gz" with
  | Some fn => if Py.str_truthy fn then Some fn else repo_dct self !! "group"
  | None => repo_dct self !! "group"
  end.

Definition content_tags (self : t) : option string :=
  repomd_dct self !! "content_tags".
Definition filelists_fn (self : t) : option string :=
  repo_dct self !! "filelists".
Definition mirrors (self : t) : list string := _mirrors self.
Definition presto_fn (self : t) : option string :=
  repo_dct self !! "prestodelta".
Definition primary_fn (self : t) : option string := repo_dct self !! "primary".
Definition repomd_fn (self : t) : option string := repo_dct self !! "repomd".
Definition revision (self : t) : option string := repomd_dct self !! "revision".
Definition updateinfo_fn (self : t) : option string :=
  repo_dct self !! "updateinfo".

Definition timestamp (self : t) (w : World) : Exc + Z :=
  file_timestamp self "primary" w.

(** [reset_age]: the new world, or the exception of a missing file name. *)
Definition reset_age (self : t) (w : World) : Exc + World :=
  match primary_fn self with
  | Some fn => inr (with_fs (touch fn (w_now w)) w)
  | None => inl TypeError
  end.

End Metadata.

(** ** The repository object *)

(** [throttle] is an [int] (bytes per second) or a fraction of [bandwidth]. *)
Inductive Throttle : Type :=
| ThrottleInt (rate : Z)
| ThrottleFraction (fraction : QArith_base.Q).

(** [int(x)]: truncation toward zero. *)
Definition int_of_Q (x : QArith_base.Q) : Z :=
  if (QArith_base.Qnum x <? 0)%Z then Qround.Qceiling x else Qround.Qfloor x.

(** use the local cache even if it's expired. download if there's no cache. *)
Definition SYNC_LAZY : Z := 1.
(** use the local cache, even if it's expired, never download. *)
Definition SYNC_ONLY_CACHE : Z := 2.
(** try the cache, if it is expired download new md. *)
Definition SYNC_TRY_CACHE : Z := 3.

Module Repo.

(** The options of [dnf.yum.config.RepoConf] this module reads, followed by
    the attributes [Repo.__init__] adds. *)
Record t : Type := mk {
  name : string;
  baseurl : list string;
  metalink : option string;
  mirrorlist : option string;
  enabled : bool;
  cost : Z;
  priority : Z;
  proxy : option string;
  proxy_username : option string;
  proxy_password : option string;
  username : option string;
  password : option string;
  sslverify : bool;
  ip_resolve : option string;
  throttle : Throttle;
  bandwidth : Z;
  timeout : Z;
  minrate : Z;
  metadata_expire : Z;
  repo_gpgcheck : bool;
  fastestmirror : bool;
  gpgkey : list string;
  _expired : bool;
  _pkgdir : option string;
  basecachedir : string;
  id_ : string;
  metadata : option Metadata.t;
  sync_strategy : Z;
  substitutions : list (string * string);
  max_mirror_tries : Z;
  _handle : option Handle
}.

Definition DEFAULT_SYNC : Z := SYNC_TRY_CACHE.

(** Attribute assignment on the repository. *)
Definition set__expired (v : bool) (self : t) : t :=
  mk (name self) (baseurl self) (metalink self) (mirrorlist self)
    (enabled self) (cost self) (priority self) (proxy self)
    (proxy_username self) (proxy_password self) (username self)
    (password self) (sslverify self) (ip_resolve self) (throttle self)
    (bandwidth self) (timeout self) (minrate self) (metadata_expire self)
    (repo_gpgcheck self) (fastestmirror self) (gpgkey self) v (_pkgdir self)
    (basecachedir self) (id_ self) (metadata self) (sync_strategy self)
    (substitutions self) (max_mirror_tries self) (_handle self).

Definition set__pkgdir (v : option string) (self : t) : t :=
  mk (name self) (baseurl self) (metalink self) (mirrorlist self)
    (enabled self) (cost self) (priority self) (proxy self)
    (proxy_username self) (proxy_password self) (username self)
    (password self) (sslverify self) (ip_resolve self) (throttle self)
    (bandwidth self) (timeout self) (minrate self) (metadata_expire self)
    (repo_gpgcheck self) (fastestmirror self) (gpgkey self) (_expired self)
    v (basecachedir self) (id_ self) (metadata self) (sync_strategy self)
    (substitutions self) (max_mirror_tries self) (_handle self).

Definition set_metadata (v : option Metadata.t) (self : t) : t :=
  mk (name self) (baseurl self) (metalink self) (mirrorlist self)
    (enabled self) (cost self) (priority self) (proxy self)
    (proxy_username self) (proxy_password self) (username self)
    (password self) (sslverify self) (ip_resolve self) (throttle self)
    (bandwidth self) (timeout self) (minrate self) (metadata_expire self)
    (repo_gpgcheck self) (fastestmirror self) (gpgkey self) (_expired self)
    (_pkgdir self) (basecachedir self) (id_ self) v (sync_strategy self)
    (substitutions self) (max_mirror_tries self) (_handle self).


Definition set__handle (v : option Handle) (self : t) : t :=
  mk (name self) (baseurl self) (metalink self) (mirrorlist self)
    (enabled self) (cost self) (priority self) (proxy self)
    (proxy_username self) (proxy_password self) (username self)
    (password self) (sslverify self) (ip_resolve self) (throttle self)
    (bandwidth self) (timeout self) (minrate self) (metadata_expire self)
    (repo_gpgcheck self) (fastestmirror self) (gpgkey self) (_expired self)
    (_pkgdir self) (basecachedir self) (id_ self) (metadata self)
    (sync_strategy self) (substitutions self) (max_mirror_tries self) v.

Definition set_enabled (v : bool) (self : t) : t :=
  mk (name self) (baseurl self) (metalink self) (mirrorlist self) v
    (cost self) (priority self) (proxy self) (proxy_username self)
    (proxy_password self) (username self) (password self) (sslverify self)
    (ip_resolve self) (throttle self) (bandwidth self) (timeout self)
    (minrate self) (metadata_expire self) (repo_gpgcheck self)
    (fastestmirror self) (gpgkey self) (_expired self) (_pkgdir self)
    (basecachedir self) (id_ self) (metadata self) (sync_strategy self)
    (substitutions self) (max_mirror_tries self) (_handle self).

Definition cachedir (self : t) : string :=
  Py.path_join (basecachedir self) (id_ self).

Definition _metalink_path (dirname : string) : string :=
  Py.path_join dirname _METALINK_FILENAME.

Definition _mirrorlist_path (dirname : string) : string :=
  Py.path_join dirname _MIRRORLIST_FILENAME.

Definition metadata_dir (self : t) : string :=
  Py.path_join (cachedir self) _METADATA_RELATIVE_DIR.

Definition metalink_path (self : t) : string := _metalink_path (cachedir self).

Definition mirrorlist_path (self : t) : string :=
  _mirrorlist_path (cachedir self).

Definition pubring_dir (self : t) : string :=
  Py.path_join (cachedir self) "pubring".

Definition local (self : t) : Exc + bool :=
  if Py.opt_truthy (metalink self) || Py.opt_truthy (mirrorlist self)
  then inr false
  else
    match baseurl self with
    | [] => inl IndexError
    | url :: _ => inr (Py.startswith url "file://")
    end.

(** Modelled from the spec: [dnf.util.strip_prefix] is not part of the
    sources; it drops a leading prefix from a string that starts with it. *)
Definition strip_prefix (s prefix : string) : string :=
  if Py.startswith s prefix
  then String.substring (String.length prefix)
                        (String.length s - String.length prefix) s
  else s.

Definition pkgdir (self : t) : Exc + string :=
  match local self with
  | inl e => inl e
  | inr true =>
      match baseurl self with
      | url :: _ => inr (strip_prefix url "file://")
      | [] => inl IndexError
      end
  | inr false =>
      match _pkgdir self with
      | Some d => inr d
      | None => inr (Py.path_join (cachedir self) "packages")
      end
  end.





Definition disable (self : t) : t := set_enabled false self.
Definition enable (self : t) : t := set_enabled true self.

Definition md_expire_cache (self : t) : t := set__expired true self.



(** *** The environment *)

(** What the repository object calls and this module does not define:
    librepo, the key import of [dnf.crypto], the temporary directory of the
    operating system, and the digests and the escaping of the helper
    modules. *)
Record Env : Type := mkEnv {
  (** a new [librepo.Handle], with librepo's defaults *)
  librepo_new_handle : Handle;
  (** [librepo.Handle.perform]: an exception [(code, message)], or what was
      fetched; the files are written below the destination directory of a
      handle that is not local, and a local handle writes nothing *)
  librepo_perform : Handle -> World -> (Z * option string) + Fetched;
  LRE_BADGPG : Z;
  (** Modelled from the spec: [dnf.crypto.import_repo_keys] is not part of
      the sources; the imported signing keys are stored in the [pubring]
      directory of the repository's cache directory.  The function gives
      the key files by name. *)
  import_repo_keys : t -> World -> list (string * string);
  (** [tempfile.mkdtemp]: the name of a new, empty directory *)
  mkdtemp : World -> string;
  (** the hexadecimal digest of some data for an algorithm
      ([dnf.yum.misc.Checksums]) *)
  hexdigest : string -> string -> string;
  urllib_quote : string -> string
}.

Inductive Event : Type :=
| EvHandleNewLocal (destdir : string)
| EvHandleNewRemote (destdir : option string) (mirror_setup : bool)
| EvPerform (h : Handle)
| EvImportRepoKeys
| EvReplaceMetadata (h : Handle).

(** The repository object, the world, and the calls made so far (oldest
    first). *)
Record State : Type := mkState {
  st_self : t;
  st_world : World;
  st_log : list Event
}.

Definition get_self : M State t := gets st_self.

Definition get_world : M State World := gets st_world.

Definition update_self (f : t -> t) : M State unit :=
  modify (fun s => mkState (f (st_self s)) (st_world s) (st_log s)).

Definition update_world (f : World -> World) : M State unit :=
  modify (fun s => mkState (st_self s) (f (st_world s)) (st_log s)).

Definition emit (e : Event) : M State unit :=
  modify (fun s => mkState (st_self s) (st_world s) (st_log s ++ [e])).

Definition lift {A : Type} (r : Exc + A) : M State A :=
  match r with
  | inl e => raise e
  | inr a => ret a
  end.

Definition is_DetailedLibrepoError (e : Exc) : bool :=
  match e with
  | DetailedLibrepoError _ _ _ => true
  | _ => false
  end.

Definition is_DetailedLibrepoError_or_IOError (e : Exc) : bool :=
  match e with
  | DetailedLibrepoError _ _ _ => true
  | IOError _ => true
  | _ => false
  end.

Section Methods.

Variable env : Env.

(** *** [_Handle] *)

Definition _Handle__init__ (gpgcheck : bool) (max_mirror_tries : Z) : Handle :=
  let self := librepo_new_handle env in
  let self := set_gpgcheck gpgcheck self in
  let self := set_maxmirrortries max_mirror_tries self in
  let self := set_interruptible true self in
  set_yumdlist
    ["primary"; "filelists"; "prestodelta"; "group_gz"; "updateinfo"] self.

Definition _Handle_new_local (subst_dct : list (string * string))
    (gpgcheck : bool) (max_mirror_tries : Z) (cachedir : string) : Handle :=
  let h := _Handle__init__ gpgcheck max_mirror_tries in
  let h := set_varsub subst_dct h in
  let h := set_destdir (Some cachedir) h in
  let h := set_urls [cachedir] h in
  set_local true h.

Definition _Handle_metadata_dir (h : Handle) : Exc + string :=
  match h_destdir h with
  | Some d => inr (Py.path_join d _METADATA_RELATIVE_DIR)
  | None => inl TypeError
  end.

Definition _Handle_metalink_path (h : Handle) : Exc + string :=
  match h_destdir h with
  | Some d => inr (_metalink_path d)
  | None => inl TypeError
  end.

Definition _Handle_mirrorlist_path (h : Handle) : Exc + string :=
  match h_destdir h with
  | Some d => inr (_mirrorlist_path d)
  | None => inl TypeError
  end.

(** [self.metalinkurl or self.mirrorlisturl or ', '.join(self.urls)]: both
    urls come from the one option [LRO_MIRRORLIST]. *)
Definition _Handle_source (h : Handle) : string :=
  if Py.opt_truthy (h_mirrorlist h) then Py.str_of_opt (h_mirrorlist h)
  else String.concat ", " (h_urls h).

(** [_Handle.perform]: the result and the handle with its information. *)
Definition _Handle_perform (h : Handle) : M State (Result * Handle) :=
  let* w := get_world in
  emit (EvPerform h) >>
  update_world tick >>
  match librepo_perform env h w with
  | inl (code, msg) => raise (DetailedLibrepoError code msg (_Handle_source h))
  | inr f =>
      (if h_local h then ret tt
       else
         match h_destdir h with
         | Some d =>
             update_world (with_fs (write_files d (fetched_files f) (w_now w)))
         | None => ret tt
         end) >>
      ret (fetched_result f,
           set_mirrors (fetched_mirrors f)
             (set_metalink (fetched_metalink f) h))
  end.

(** *** Handle construction *)

Definition _set_ip_resolve (self : t) (handle : Handle) : Handle :=
  match ip_resolve self with
  | Some v =>
      if String.eqb v "ipv4" then set_ipresolve (Some IPRESOLVE_V4) handle
      else if String.eqb v "ipv6" then set_ipresolve (Some IPRESOLVE_V6) handle
      else handle
  | None => handle
  end.

Definition _handle_new_local (self : t) (destdir : string) : Handle :=
  _Handle_new_local (substitutions self) (repo_gpgcheck self)
                    (max_mirror_tries self) destdir.

Definition _handle_new_remote (self : t) (destdir : option string)
    (mirror_setup : bool) : Exc + Handle :=
  let h := _Handle__init__ (repo_gpgcheck self) (max_mirror_tries self) in
  let h := set_varsub (substitutions self) h in
  let h := set_destdir destdir h in
  let h := _set_ip_resolve self h in
  (* setup mirror URLs *)
  let mirrorlist :=
    if Py.opt_truthy (metalink self) then metalink self else mirrorlist self in
  let urls : Exc + Handle :=
    if Py.opt_truthy mirrorlist then
      let h := set_hmfcb true h in
      if mirror_setup then
        let h := set_mirrorlist mirrorlist h in
        let h := set_fastestmirror (Some (fastestmirror self)) h in
        inr (set_fastestmirrorcache
               (Some (Py.path_join (basecachedir self) "fastestmirror.cache"))
               h)
      else
        (* use already resolved mirror list *)
        match metadata self with
        | Some md => inr (set_urls (Metadata.mirrors md) h)
        | None => inl (AttributeError "mirrors")
        end
    else
      match baseurl self with
      | _ :: _ => inr (set_urls (baseurl self) h)
      | [] =>
          inl (RepoError ("Cannot find a valid baseurl for repo: " +:+ id_ self))
      end in
  match urls with
  | inl e => inl e
  | inr h =>
      (* setup username/password if needed *)
      let h :=
        match username self with
        | Some user =>
            if Py.str_truthy user then
              let userpwd :=
                if Py.opt_truthy (password self)
                then user +:+ ":" +:+ Py.str_of_opt (password self)
                else user in
              set_userpwd (Some userpwd) h
            else h
        | None => h
        end in
      (* setup download progress *)
      let h := set_progresscb true h in
      let h := set_fastestmirrorcb true h in
      (* apply repo options *)
      let h :=
        set_maxspeed
          match throttle self with
          | ThrottleInt rate => rate
          | ThrottleFraction fraction =>
              int_of_Q (QArith_base.Qmult
                          (QArith_base.inject_Z (bandwidth self)) fraction)
          end h in
      let h := set_proxy (proxy self) h in
      let h := set_lowspeedlimit (minrate self) h in
      let h := set_lowspeedtime (timeout self) h in
      let current_timeout := h_connecttimeout h in
      let h := set_connecttimeout (Z.max (timeout self) current_timeout) h in
      let h :=
        set_proxyuserpwd
          (_user_pass_str (urllib_quote env) (proxy_username self)
                          (proxy_password self)) h in
      let h := set_sslverifyhost (sslverify self) h in
      inr (set_sslverifypeer (sslverify self) h)
  end.

Definition _handle_new_pkg_download (self : t) : Exc + Handle :=
  match pkgdir self with
  | inl e => inl e
  | inr d => _handle_new_remote self (Some d) false
  end.

(** [get_handle]: the handle, and the repository with the handle cached. *)
Definition get_handle (self : t) : Exc + (Handle * t) :=
  match _handle self with
  | Some h => inr (h, self)
  | None =>
      match _handle_new_remote self None true with
      | inl e => inl e
      | inr h => inr (h, set__handle (Some h) self)
      end
  end.

(** The two constructions as calls of the running repository. *)
Definition new_local (destdir : string) : M State Handle :=
  let* self := get_self in
  emit (EvHandleNewLocal destdir) >>
  ret (_handle_new_local self destdir).

Definition new_remote (destdir : option string) (mirror_setup : bool)
    : M State Handle :=
  let* self := get_self in
  emit (EvHandleNewRemote destdir mirror_setup) >>
  lift (_handle_new_remote self destdir mirror_setup).

(** *** Loading through a handle *)

Definition _handle_load_core (handle : Handle)
    : M State (Metadata.t * Handle) :=
  let* rh := _Handle_perform handle in
  ret (Metadata.__init__ (fst rh) (snd rh), snd rh).

(** [dnf.crypto.pubring_dir] points the signature check at the key ring of
    the repository for the time of the call; it writes no file. *)
Definition _handle_load_with_pubring (handle : Handle)
    : M State (Metadata.t * Handle) :=
  _handle_load_core handle.

(** [dnf.util.clear_dir(handle.destdir)] *)
Definition clear_destdir (handle : Handle) : M State unit :=
  match h_destdir handle with
  | Some d => update_world (with_fs (clear_dir d))
  | None => raise TypeError
  end.

(** [dnf.crypto.import_repo_keys(self)] *)
Definition call_import_repo_keys : M State unit :=
  let* self := get_self in
  let* w := get_world in
  emit EvImportRepoKeys >>
  update_world
    (with_fs (write_files (pubring_dir self) (import_repo_keys env self w)
                          (w_now w))).

Definition _handle_load (handle : Handle) : M State (Metadata.t * Handle) :=
  let* self := get_self in
  if negb (repo_gpgcheck self) then _handle_load_core handle
  else
    try_except (_handle_load_with_pubring handle) is_DetailedLibrepoError
      (fun e =>
         match e with
         | DetailedLibrepoError librepo_code _ _ =>
             if negb (librepo_code =? LRE_BADGPG env) then raise e
             else
               clear_destdir handle >>
               call_import_repo_keys >>
               _handle_load_with_pubring handle
         | _ => raise e
         end).

(** Modelled from the spec: [dnf.util.tmpdir] is not part of the sources; it
    acquires a temporary directory and deletes it on every exit path. *)
Definition tmpdir {A : Type} (body : string -> M State A) : M State A :=
  let* w := get_world in
  let path := mkdtemp env w in
  try_finally (body path) (update_world (with_fs (rm_rf path))).

Definition move (src dst : string) : M State unit :=
  let* w := get_world in
  match shutil_move src dst (w_fs w) with
  | Some fs' => update_world (with_fs (fun _ => fs'))
  | None => raise (IOError src)
  end.

Definition _replace_metadata (handle : Handle) : M State unit :=
  let* self := get_self in
  emit (EvReplaceMetadata handle) >>
  update_world (with_fs (rm_rf (metadata_dir self))) >>
  update_world (with_fs (rm_rf (metalink_path self))) >>
  update_world (with_fs (rm_rf (mirrorlist_path self))) >>
  let* src := lift (_Handle_metadata_dir handle) in
  move src (metadata_dir self) >>
  match h_metalink handle with
  | Some _ =>
      let* src := lift (_Handle_metalink_path handle) in
      move src (metalink_path self)
  | None =>
      if Py.opt_truthy (h_mirrorlist handle) then
        let* src := lift (_Handle_mirrorlist_path handle) in
        move src (mirrorlist_path self)
      else ret tt
  end.

Definition _reset_metadata_expired : M State unit :=
  let* self := get_self in
  if _expired self then
    (* explicitly requested expired state *)
    ret tt
  else
    let* w := get_world in
    match metadata self with
    | None => raise (AttributeError "age")
    | Some md =>
        let* age := lift (Metadata.age md w) in
        update_self (set__expired (metadata_expire self <=? age)) >>
        if metadata_expire self =? -1 then update_self (set__expired false)
        else ret tt
    end.

Definition _try_cache : M State bool :=
  let* self := get_self in
  match metadata self with
  | Some _ => raise AssertionError
  | None =>
      let* handle := new_local (cachedir self) in
      let* loaded :=
        try_except
          (let* mh := _handle_load handle in
           update_self (set_metadata (Some (fst mh))) >>
           ret true)
          is_DetailedLibrepoError_or_IOError
          (fun _ => ret false) in
      if loaded then _reset_metadata_expired >> ret true
      else ret false
  end.

(** [dnf.yum.misc.Checksums(algos, ...)], read over [data]: the dictionary
    of [hexdigests()]. *)
Definition hexdigests (algos : list string) (data : string)
    : gmap string string :=
  list_to_map (List.map (fun algo => (algo, hexdigest env algo data)) algos).

(** The loop over the advertised hashes, which leaves at the first
    mismatch. *)
Fixpoint check_hashes (digests : gmap string string)
    (hashes : list (string * string)) : Exc + bool :=
  match hashes with
  | [] => inr true
  | (algo, digest) :: rest =>
      match digests !! algo with
      | None => inl (KeyError algo)
      | Some d =>
          if negb (String.eqb d digest) then inr false
          else check_hashes digests rest
      end
  end.

Definition recognized (hsh_val : string * string) : bool :=
  bool_decide (fst hsh_val ∈ _RECOGNIZED_CHKSUMS).

Definition _try_revive : M State bool :=
  let* self := get_self in
  match metadata self with
  | None => ret false
  | Some md =>
      if negb (Py.opt_truthy (metalink self)) then ret false
      else
        match Metadata.repo_dct md !! "repomd" with
        | None => raise (KeyError "repomd")
        | Some repomd_fn =>
            tmpdir (fun tmpdir =>
              let* w := get_world in
              match w_fs w !! repomd_fn with
              | None => raise (IOError repomd_fn)
              | Some repomd =>
                  let* handle := new_remote (Some tmpdir) true in
                  let handle := set_fetchmirrors true handle in
                  let* rh := _Handle_perform handle in
                  let handle := snd rh in
                  match h_metalink handle with
                  | None => ret false
                  | Some ml =>
                      let hashes := List.filter recognized (ml_hashes ml) in
                      if (length hashes <? 1)%nat then ret false
                      else
                        let algos := List.map fst hashes in
                        let digests := hexdigests algos (f_data repomd) in
                        lift (check_hashes digests hashes)
                  end
              end)
        end
  end.

(** *** [load] *)

(** Lines 782 to 785: the remote fetch into the temporary directory. *)
Definition load_fetch (tmpdir : string) : M State Handle :=
  let* handle := new_remote (Some tmpdir) true in
  let* mh := _handle_load handle in
  ret (snd mh).

(** Lines 781 to 792: the full refetch. *)
Definition load_refetch : M State unit :=
  tmpdir (fun tmpdir =>
    let* handle := load_fetch tmpdir in
    (* override old md with the new ones: *)
    _replace_metadata handle) >>
  (* get md from the cache now: *)
  let* self := get_self in
  let* handle := new_local (cachedir self) in
  let* mh := _handle_load handle in
  update_self (set_metadata (Some (Metadata.set_fresh true (fst mh)))).

Definition reset_age : M State unit :=
  let* self := get_self in
  let* w := get_world in
  match metadata self with
  | None => raise (AttributeError "reset_age")
  | Some md =>
      let* w' := lift (Metadata.reset_age md w) in
      update_world (fun _ => w')
  end.

Definition sync_error (self : t) (e : Exc) : Exc :=
  match e with
  | DetailedLibrepoError _ librepo_msg source_url =>
      RepoError ("Failed to synchronize cache for repo '" +:+ id_ self
                 +:+ "' from '" +:+ source_url +:+ "': "
                 +:+ Py.str_of_opt librepo_msg)
  | _ => e
  end.

(** Lines 774 to 798: revive, or else refetch. *)
Definition load_sync : M State bool :=
  let* self := get_self in
  let* returned :=
    try_except
      (let* revived := _try_revive in
       if revived then
         (* the expired metadata still reflect the origin: *)
         reset_age >>
         update_self (set__expired false) >>
         ret true
       else
         load_refetch >>
         ret false)
      is_DetailedLibrepoError
      (fun e => raise (sync_error self e)) in
  if returned then ret true
  else
    update_self (set__expired false) >>
    ret true.

Definition load : M State bool :=
  let* self := get_self in
  let* cached :=
    match metadata self with
    | Some _ => ret true
    | None => _try_cache
    end in
  let* self := get_self in
  if cached
     && ((sync_strategy self =? SYNC_ONLY_CACHE)
         || (sync_strategy self =? SYNC_LAZY)
         || negb (_expired self))
  then ret false
  else if sync_strategy self =? SYNC_ONLY_CACHE then
    raise (RepoError ("Cache-only enabled but no cache for '" +:+ id_ self
                      +:+ "'"))
  else load_sync.

Definition metadata_expire_in : M State (bool * option Z) :=
  let* self := get_self in
  (match metadata self with
   | None => _try_cache >> ret tt
   | Some _ => ret tt
   end) >>
  let* self := get_self in
  match metadata self with
  | Some md =>
      if metadata_expire self =? -1 then ret (true, None)
      else
        let* w := get_world in
        let* age := lift (Metadata.age md w) in
        let expiration := metadata_expire self - age in
        let expiration :=
          if _expired self then Z.min 0 expiration else expiration in
        ret (true, Some expiration)
  | None => ret (false, Some 0)
  end.

End Methods.

End Repo.

(** * Reference definitions for the statements *)

(** The bytes a list of payloads adds to the two counters. *)
Fixpoint downloaded_total (payloads : list RPMPayload) : Z :=
  match payloads with
  | [] => 0
  | p :: ps => download_size p + downloaded_total ps
  end.

Fixpoint full_total (payloads : list RPMPayload) (errs : ErrDict) : Z :=
  match payloads with
  | [] => 0
  | p :: ps =>
      (if bool_decide (is_Some (errs !! inr (pkg p))) then 0
       else download_size p) + full_total ps errs
  end.

(** What the batch as classified in the prose of the specification would
    be: a raised exception gives the single fatal entry and nothing else;
    otherwise every target is classified. *)
Definition skipped_of (targets : list PackageTarget) : gset Package :=
  list_to_set
    (List.map (fun tgt => pkg (tgt_cbdata tgt))
       (List.filter
          (fun tgt =>
             match tgt_err tgt with
             | Some err => String.eqb err "Already downloaded"
             | None => false
             end)
          targets)).

Definition ledger_as_claimed (outcome : BatchOutcome)
    (targets : list PackageTarget) (errs : _DownloadErrors) : Prop :=
  match bo_raised outcome with
  | Some _ => is_Some (fatal errs) /\ skipped errs = ∅
  | None => fatal errs = None /\ skipped errs = skipped_of targets
  end.

(** The files of a state. *)
Definition fs_of (s : Repo.State) : gmap string File := w_fs (Repo.st_world s).

(** Calls that stay on the machine: no remote handle is built, no handle
    other than a local one is performed, no keys are imported (the import
    of [dnf.crypto] retrieves the keys of the repository), the cache is
    not replaced. *)
Definition local_event (e : Repo.Event) : Prop :=
  match e with
  | Repo.EvHandleNewLocal _ => True
  | Repo.EvHandleNewRemote _ _ => False
  | Repo.EvPerform h => h_local h = true
  | Repo.EvImportRepoKeys => False
  | Repo.EvReplaceMetadata _ => False
  end.

(** Calls of a fetch into the directory [tmp]: every handle built or
    performed has [tmp] as its destination, and the cache is not replaced. *)
Definition fetch_event (tmp : string) (e : Repo.Event) : Prop :=
  match e with
  | Repo.EvHandleNewLocal _ => False
  | Repo.EvHandleNewRemote d _ => d = Some tmp
  | Repo.EvPerform h => h_destdir h = Some tmp
  | Repo.EvImportRepoKeys => True
  | Repo.EvReplaceMetadata _ => False
  end.

(** Neither of two directories is inside the other. *)
Definition disjoint_trees (a b : string) : bool :=
  negb (String.eqb a b)
  && negb (Py.startswith (a +:+ "/") (b +:+ "/"))
  && negb (Py.startswith (b +:+ "/") (a +:+ "/"))
  && negb (Py.startswith a (b +:+ "/"))
  && negb (Py.startswith b (a +:+ "/")).

(** What revive decides from a fetched descriptor and the data of the
    cached repomd file. *)
Definition revive_decision (env : Repo.Env) (f : Fetched) (data : string)
    : Exc + bool :=
  match fetched_metalink f with
  | None => inr false
  | Some ml =>
      let hashes := List.filter Repo.recognized (ml_hashes ml) in
      if (length hashes <? 1)%nat then inr false
      else
        Repo.check_hashes
          (Repo.hexdigests env (List.map fst hashes) data) hashes
  end.

(** The handle of the descriptor fetch of revive. *)
Definition revive_handle (env : Repo.Env) (s : Repo.State) : Exc + Handle :=
  match Repo._handle_new_remote env (Repo.st_self s)
          (Some (Repo.mkdtemp env (Repo.st_world s))) true with
  | inl e => inl e
  | inr h => inr (set_fetchmirrors true h)
  end.

(** The answer of [_try_revive], read off the state it starts in. *)
Definition revive_result (env : Repo.Env) (s : Repo.State) : Exc + bool :=
  match Repo.metadata (Repo.st_self s) with
  | None => inr false
  | Some md =>
      if negb (Py.opt_truthy (Repo.metalink (Repo.st_self s))) then inr false
      else
        match Metadata.repo_dct md !! "repomd" with
        | None => inl (KeyError "repomd")
        | Some repomd_fn =>
            match fs_of s !! repomd_fn with
            | None => inl (IOError repomd_fn)
            | Some repomd =>
                match revive_handle env s with
                | inl e => inl e
                | inr h =>
                    match Repo.librepo_perform env h (Repo.st_world s) with
                    | inl (code, msg) =>
                        inl (DetailedLibrepoError code msg
                               (Repo._Handle_source h))
                    | inr f => revive_decision env f (f_data repomd)
                    end
                end
            end
        end
  end.

(** What [load] does once revive has declined: the full refetch, with the
    errors of the engine turned into the synchronization error. *)
Definition refetch_path (env : Repo.Env) (self : Repo.t) : M Repo.State bool :=
  let* returned :=
    try_except
      (Repo.load_refetch env >> ret false)
      Repo.is_DetailedLibrepoError
      (fun e => raise (Repo.sync_error self e)) in
  if returned then ret true
  else
    Repo.update_self (Repo.set__expired false) >>
    ret true.

(** The answers of successive calls of [load] on one repository object,
    each in a world of its own. *)
Fixpoint load_each (env : Repo.Env) (self : Repo.t) (worlds : list World)
    : list (Exc + bool) :=
  match worlds with
  | [] => []
  | w :: worlds' =>
      let rs := Repo.load env (Repo.mkState self w []) in
      fst rs :: load_each env (Repo.st_self (snd rs)) worlds'
  end.

(** The conditions of a successful revive, for a repository whose snapshot
    is [md]: a metalink is configured; the descriptor fetched through the
    revive handle contains a metalink with at least one hash of a recognized
    algorithm; and every hash of a recognized algorithm equals the digest of
    the cached repomd file. *)
Definition revive_conditions (env : Repo.Env) (s : Repo.State)
    (md : Metadata.t) : Prop :=
  Py.opt_truthy (Repo.metalink (Repo.st_self s)) = true
  /\ exists h f ml repomd_fn repomd,
       revive_handle env s = inr h
       /\ Repo.librepo_perform env h (Repo.st_world s) = inr f
       /\ fetched_metalink f = Some ml
       /\ (exists hsh, In hsh (ml_hashes ml)
                       /\ In (fst hsh) _RECOGNIZED_CHKSUMS)
       /\ Metadata.repo_dct md !! "repomd" = Some repomd_fn
       /\ fs_of s !! repomd_fn = Some repomd
       /\ forall algo digest,
            In (algo, digest) (ml_hashes ml) ->
            In algo _RECOGNIZED_CHKSUMS ->
            Repo.hexdigest env algo (f_data repomd) = digest.

(** The descriptor can be compared at all: with a metalink configured, the
    cached repomd file can be opened and the descriptor fetch returns. *)
Definition revive_can_compare (env : Repo.Env) (s : Repo.State)
    (md : Metadata.t) : Prop :=
  Py.opt_truthy (Repo.metalink (Repo.st_self s)) = true ->
  exists h f repomd_fn repomd,
    revive_handle env s = inr h
    /\ Repo.librepo_perform env h (Repo.st_world s) = inr f
    /\ Metadata.repo_dct md !! "repomd" = Some repomd_fn
    /\ fs_of s !! repomd_fn = Some repomd.

(** The hashes of recognized algorithms all match the digests of [data]. *)
Definition hashes_agree (env : Repo.Env) (data : string)
    (hashes : list (string * string)) : bool :=
  forallb (fun hsh => String.eqb (Repo.hexdigest env (fst hsh) data) (snd hsh))
          hashes.

(** The full refetch of [load], interrupted by the exception [e] after the
    fetch into the temporary directory and before the replace step. *)
Definition refetch_interrupted (env : Repo.Env) (e : Exc)
    : M Repo.State unit :=
  Repo.tmpdir env (fun tmpdir =>
    let* handle := Repo.load_fetch env tmpdir in
    raise e).

(** The canonical cache directory holds the same files in both states. *)
Definition cache_unchanged (self : Repo.t) (s s' : Repo.State) : Prop :=
  forall p, under (Repo.cachedir self) p = true ->
            fs_of s' !! p = fs_of s !! p.

(** The same, the key ring apart when the signature check is on. *)
Definition cache_unchanged_but_keys (self : Repo.t) (s s' : Repo.State)
    : Prop :=
  forall p, under (Repo.cachedir self) p = true ->
            Repo.repo_gpgcheck self = false
            \/ Py.startswith p (Repo.pubring_dir self +:+ "/") = false ->
            fs_of s' !! p = fs_of s !! p.


(** ** A test bench *)

Module Example.

Definition default_handle : Handle :=
  mkHandle false 0 false [] [] None [] false None None None None None false
           false false 0 None 1000 30 30 None true true false None [].

Definition pkgA : Package := mkPackage "a-1.0-1.noarch" 100 "a.rpm" None ("sha256", "aa").
Definition pkgB : Package := mkPackage "b-1.0-1.noarch" 200 "b.rpm" None ("sha256", "bb").
Definition pkgC : Package := mkPackage "c-1.0-1.noarch" 300 "c.rpm" None ("md4", "cc").

Definition payloads : list RPMPayload :=
  [mkRPMPayload pkgA; mkRPMPayload pkgB; mkRPMPayload pkgC].

Definition get_handle (p : Package) : Exc + Handle := inr default_handle.
Definition pkgdir_of (p : Package) : string := "/var/cache/dnf/base/packages".
Definition librepo_attr (n : string) : option Z :=
  if String.eqb n "SHA256" then Some 2 else None.

(** The first target is already there, the second went through, the third
    failed. *)
Definition errs_by_position (i : nat) : option string :=
  match i with
  | 0%nat => Some "Already downloaded"
  | 1%nat => None
  | _ => Some "Cannot download c.rpm: All mirrors were tried"
  end.

(** The same batch, once with the primitive raising and once without. *)
Definition raising (targets : list PackageTarget) : BatchOutcome :=
  mkBatchOutcome errs_by_position (Some (10, Some "Download failed")) ∅.


(** [urllib.quote]: letters, digits and [_.-/] stay, every other byte
    becomes [%XX]. *)
Definition hex_digit (n : nat) : ascii :=
  nth n (list_ascii_of_string "0123456789ABCDEF") "0"%char.

Definition quote_safe (c : ascii) : bool :=
  Py.char_in c (Py.ascii_letters +:+ Py.digits +:+ "_.-/").

Fixpoint quote (s : string) : string :=
  match s with
  | EmptyString => EmptyString
  | String c s' =>
      if quote_safe c then String c (quote s')
      else
        let n := nat_of_ascii c in
        String "%" (String (hex_digit (n / 16))
                           (String (hex_digit (n mod 16)) (quote s')))
  end.

(** A toy digest: the algorithm and the data, joined. *)
Definition digest (algo data : string) : string := algo +:+ ":" +:+ data.

(** A repository [r] cached under [/c], by its varying options: the
    metalink, the credentials, the signature check, the expiry, the
    strategy, the expired flag and the snapshot. *)
Definition repo (metalink username password : option string)
    (repo_gpgcheck : bool) (metadata_expire sync_strategy : Z)
    (_expired : bool) (metadata : option Metadata.t) : Repo.t :=
  Repo.mk "r" ["http://h/r"] metalink None true 1000 99
          (Some "http://proxy:3128") (Some "p u") None username password
          true None (ThrottleInt 0) 0 30 1000 metadata_expire repo_gpgcheck
          true [] _expired None "/c" "r" metadata sync_strategy [] 0 None.

(** The snapshot of the cache of [r]. *)
Definition snapshot : Metadata.t :=
  Metadata.mk false
    (<["primary" := "/c/r/repodata/primary"]>
       (<["repomd" := "/c/r/repodata/repomd.xml"]> ∅))
    ∅ ["http://h/r"].

(** The cache of [r] on disk, written at time 100. *)
Definition cache_fs : gmap string File :=
  <["/c/r/repodata/primary" := mkFile "old primary" 100]>
    (<["/c/r/repodata/repomd.xml" := mkFile "old repomd" 100]>
       (<["/c/r/metalink.xml" := mkFile "old metalink" 100]> ∅)).

Definition BADGPG : Z := 25.

(** The transfer engine of the test bench.  A local handle loads when the
    descriptor is in its directory.  A remote handle fetches the metalink,
    which advertises [hashes], and, unless it only fetches mirrors, the
    metadata; with the signature check on it reports a bad signature as long
    as the key ring is empty. *)
Definition perform (hashes : list (string * string)) (h : Handle) (w : World)
    : (Z * option string) + Fetched :=
  match h_destdir h with
  | None => inl (2, Some "no destination")
  | Some d =>
      let res :=
        mkResult (<["primary" := d +:+ "/repodata/primary"]>
                    (<["repomd" := d +:+ "/repodata/repomd.xml"]> ∅)) ∅ in
      if h_local h then
        match w_fs w !! (d +:+ "/repodata/repomd.xml") with
        | Some _ => inr (mkFetched [] res None [d])
        | None => inl (14, Some "Cannot open repomd.xml")
        end
      else if h_fetchmirrors h then
        inr (mkFetched [("metalink.xml", "new metalink")] res
                       (Some (mkMetalink hashes)) ["http://h/r"])
      else if h_gpgcheck h
              && negb (bool_decide (is_Some (w_fs w !! "/c/r/pubring/key")))
      then inl (BADGPG, Some "Bad GPG signature")
      else
        inr (mkFetched [("repodata/repomd.xml", "new repomd");
                        ("repodata/primary", "new primary");
                        ("metalink.xml", "new metalink")]
                       res (Some (mkMetalink hashes)) ["http://h/r"])
  end.

Definition env (hashes : list (string * string)) : Repo.Env :=
  Repo.mkEnv default_handle (perform hashes) BADGPG
             (fun _ _ => [("key", "signing key")])
             (fun _ => "/t") digest quote.

(** The same bench with the origin out of reach: every handle that is not
    local fails with a transfer error. *)
Definition perform_offline (h : Handle) (w : World)
    : (Z * option string) + Fetched :=
  if h_local h then perform [] h w
  else inl (12, Some "Timeout was reached").

Definition env_offline : Repo.Env :=
  Repo.mkEnv default_handle perform_offline BADGPG
             (fun _ _ => [("key", "signing key")])
             (fun _ => "/t") digest quote.

(** The same bench with an engine that rejects every signature. *)
Definition perform_badgpg (h : Handle) (w : World)
    : (Z * option string) + Fetched :=
  inl (BADGPG, Some "Bad GPG signature").

Definition env_badgpg : Repo.Env :=
  Repo.mkEnv default_handle perform_badgpg BADGPG
             (fun _ _ => [("key", "signing key")])
             (fun _ => "/t") digest quote.

Definition world (fs : gmap string File) (now : Z) : World :=
  mkWorld fs now 0.

Definition state (r : Repo.t) (fs : gmap string File) (now : Z)
    : Repo.State :=
  Repo.mkState r (world fs now) [].

End Example.

(** * Properties *)

(** ** Repository id validation *)

Lemma char_in_allowed_chars (c : ascii) :
  Py.char_in c allowed_chars = in_id_charset c.
Proof.
  destruct c as [[] [] [] [] [] [] [] []]; vm_compute; reflexivity.
Qed.

Lemma get_list_ascii (s : string) (i : nat) :
  String.get i s = nth_error (list_ascii_of_string s) i.
Proof.
  revert i; induction s as [|c s IH]; intros [|i]; simpl; auto.
Qed.

Lemma first_invalid_from (l : list ascii) (k : nat) :
  match first (List.map fst
                 (List.filter
                    (fun ic : nat * ascii =>
                       negb (Py.char_in (snd ic) allowed_chars))
                    (Py.enumerate_from k l))) with
  | Some i =>
      exists j c, i = (k + j)%nat /\ nth_error l j = Some c
                  /\ in_id_charset c = false
                  /\ forall j' c', (j' < j)%nat -> nth_error l j' = Some c' ->
                                   in_id_charset c' = true
  | None => forall j c, nth_error l j = Some c -> in_id_charset c = true
  end.
Proof.
  revert k; induction l as [|a l IH]; intros k.
  - simpl. intros [|j] c; discriminate.
  - cbn [Py.enumerate_from List.filter snd].
    rewrite char_in_allowed_chars.
    destruct (in_id_charset a) eqn:Ha; cbn [negb List.map first fst].
    + specialize (IH (S k)).
      destruct (first _) as [i|].
      * destruct IH as (j & c & -> & Hj & Hc & Hlt).
        exists (S j), c. repeat split; auto; try lia.
        intros [|j'] c' Hlt' Hn; simpl in Hn.
        -- congruence.
        -- apply (Hlt j'); auto; lia.
      * intros [|j] c Hn; simpl in Hn; [congruence | eauto].
    + exists 0%nat, a. repeat split; auto; try lia.
Qed.

(** C8. [repo_id_invalid] reports the index of the first character outside
    ASCII letters, digits and [-_.:] when there is one, and [None] (valid)
    when every character is in that set; ["base-1.el9_x"] is valid, and
    ["base repo!"] is invalid at index 4, its space. *)
Theorem repo_id_invalid_first_offending (repo_id : string) :
  match repo_id_invalid repo_id with
  | Some i =>
      (exists c, String.get i repo_id = Some c /\ in_id_charset c = false)
      /\ (forall j c, (j < i)%nat -> String.get j repo_id = Some c ->
                      in_id_charset c = true)
  | None => forall j c, String.get j repo_id = Some c -> in_id_charset c = true
  end
  /\ repo_id_invalid "base-1.el9_x" = None
  /\ repo_id_invalid "base repo!" = Some 4%nat
  /\ String.get 4 "base repo!" = Some " "%char.
Proof.
  split; [|repeat split; reflexivity].
  unfold repo_id_invalid, Py.enumerate.
  pose proof (first_invalid_from (list_ascii_of_string repo_id) 0) as H.
  destruct (first _) as [i|].
  - destruct H as (j & c & -> & Hj & Hc & Hlt). simpl. split.
    + exists c. rewrite get_list_ascii. auto.
    + intros j' c' Hlt' Hg. rewrite get_list_ascii in Hg. eauto.
  - intros j c Hg. rewrite get_list_ascii in Hg. eauto.
Qed.

(** ** Size accounting *)

Lemma update_saving_cons {P : Type} `{PayloadSizes P} (real full : Z)
    (pload : P) (payloads : list P) (errs : ErrDict) :
  update_saving (real, full) (pload :: payloads) errs =
  update_saving
    (if bool_decide (is_Some (errs !! inr (payload_pkg pload)))
     then (real + download_size pload, full)
     else (real + download_size pload, full + full_size pload))
    payloads errs.
Proof.
  unfold update_saving. cbn [fold_left].
  destruct (bool_decide _); reflexivity.
Qed.

(** C7. [update_saving] adds the download size of every payload to the
    downloaded counter, and to the full counter exactly when the payload's
    package is not in the error set. *)
Theorem update_saving_accounting (payloads : list RPMPayload) (errs : ErrDict)
    (real full : Z) :
  update_saving (real, full) payloads errs =
    (real + downloaded_total payloads, full + full_total payloads errs)
  /\ forall (pload : RPMPayload) (rest : list RPMPayload),
       update_saving (real, full) (pload :: rest) errs =
       update_saving
         (if bool_decide (is_Some (errs !! inr (pkg pload)))
          then (real + download_size pload, full)
          else (real + download_size pload, full + download_size pload))
         rest errs.
Proof.
  split.
  - revert real full; induction payloads as [|p ps IH]; intros real full.
    + unfold update_saving. cbn [fold_left downloaded_total full_total].
      f_equal; lia.
    + rewrite update_saving_cons.
      change (payload_pkg p) with (pkg p).
      change (full_size p) with (download_size p).
      cbn [downloaded_total full_total].
      destruct (bool_decide _); rewrite IH; f_equal; lia.
  - intros pload rest. rewrite update_saving_cons.
    change (payload_pkg pload) with (pkg pload).
    change (full_size pload) with (download_size pload).
    reflexivity.
Qed.

(** ** The ledger *)

Ltac run_heap :=
  cbv beta iota delta [bind ret raise gets get modify read_dict write_dict
                       new_dict dict_setitem].

Lemma heap_lookup_new (h : Heap) (d : ErrDict) :
  (h ++ [d]) !! length h = Some d.
Proof. apply list_lookup_middle; reflexivity. Qed.

(** C6. The [irrecoverable] view of a ledger whose per-package dictionary
    is [d]: it is [d] itself when [d] has entries; with no entries and a
    fatal message set, it is the single entry keyed by the empty string
    whose value is the one-element list of that message; with neither, it is
    empty. *)
Theorem irrecoverable_view_cases (self : _DownloadErrors) (h : Heap)
    (d : ErrDict) :
  h !! _irrecoverable self = Some d ->
  (d ≠ ∅ -> fst (irrecoverable_view self h) = inr d)
  /\ (d = ∅ -> forall msg, fatal self = Some msg -> msg ≠ "" ->
      fst (irrecoverable_view self h) = inr {[ inl "" := [msg] ]})
  /\ (d = ∅ -> Py.opt_truthy (fatal self) = false ->
      fst (irrecoverable_view self h) = inr ∅).
Proof.
  intros Hd. unfold irrecoverable_view, irrecoverable. run_heap.
  rewrite Hd. cbn [default]. unfold dict_truthy.
  repeat split.
  - intros Hne. rewrite bool_decide_eq_true_2 by assumption.
    rewrite Hd. reflexivity.
  - intros -> msg Hf Hmsg. rewrite bool_decide_eq_false_2 by (intros X; apply X; reflexivity).
    rewrite Hf. destruct msg as [|c msg]; [congruence|].
    cbn [Py.str_truthy]. rewrite heap_lookup_new. reflexivity.
  - intros -> Hf. rewrite bool_decide_eq_false_2 by (intros X; apply X; reflexivity).
    destruct (fatal self) as [msg|].
    + cbn [Py.opt_truthy] in Hf. rewrite Hf. rewrite heap_lookup_new. reflexivity.
    + rewrite heap_lookup_new. reflexivity.
Qed.

Lemma not_finished_is_not_already (err : string) :
  Py.startswith err "Not finished" = true ->
  String.eqb err "Already downloaded" = false.
Proof.
  intros H. destruct (String.eqb err "Already downloaded") eqn:E; [|reflexivity].
  apply String.eqb_eq in E. subst err. vm_compute in H. discriminate.
Qed.

Lemma skipped_of_cons (t : PackageTarget) (ts : list PackageTarget) :
  skipped_of (t :: ts) =
  (match tgt_err t with
   | Some err => if String.eqb err "Already downloaded"
                 then {[ pkg (tgt_cbdata t) ]} else ∅
   | None => ∅
   end) ∪ skipped_of ts.
Proof.
  unfold skipped_of. cbn [List.filter].
  destruct (tgt_err t) as [err|].
  - destruct (String.eqb err "Already downloaded").
    + cbn [List.map list_to_set]. reflexivity.
    + set_solver.
  - set_solver.
Qed.

Lemma elem_of_skipped_of (p : Package) (ts : list PackageTarget) :
  p ∈ skipped_of ts <->
  exists i t, ts !! i = Some t /\ pkg (tgt_cbdata t) = p
              /\ tgt_err t = Some "Already downloaded".
Proof.
  induction ts as [|t ts IH].
  - unfold skipped_of. cbn. split; [set_solver|].
    intros (i & t & H & _). destruct i; discriminate.
  - rewrite skipped_of_cons, elem_of_union, IH. split.
    + intros [H|(i & t' & H1 & H2 & H3)].
      * destruct (tgt_err t) as [err|] eqn:E; [|set_solver].
        destruct (String.eqb_spec err "Already downloaded") as [->|]; [|set_solver].
        exists 0%nat, t. repeat split; auto. set_solver.
      * exists (S i), t'. auto.
    + intros ([|i] & t' & H1 & H2 & H3).
      * cbn in H1. injection H1 as ->. left. rewrite H3.
        rewrite String.eqb_refl. set_solver.
      * right. exists i, t'. auto.
Qed.

Lemma process_target_step (errs0 : _DownloadErrors) (t : PackageTarget)
    (h : Heap) :
  exists errs h',
    process_target errs0 t h = (inr errs, h')
    /\ fatal errs = fatal errs0
    /\ _irrecoverable errs = _irrecoverable errs0
    /\ _recoverable errs = _recoverable errs0
    /\ skipped errs =
       (match tgt_err t with
        | Some err => if String.eqb err "Already downloaded"
                      then {[ pkg (tgt_cbdata t) ]} else ∅
        | None => ∅
        end) ∪ skipped errs0
    /\ (length h <= length h')%nat
    /\ (forall l, l ≠ _irrecoverable errs0 -> (l < length h)%nat ->
                  h' !! l = h !! l)
    /\ (h !! _irrecoverable errs0 = Some ∅ ->
        h' !! _irrecoverable errs0 = Some ∅).
Proof.
  unfold process_target.
  destruct (tgt_err t) as [err|].
  2:{ exists errs0, h. run_heap. repeat split; auto. set_solver. }
  destruct (Py.startswith err "Not finished") eqn:Enf.
  { exists errs0, h. run_heap. rewrite (not_finished_is_not_already _ Enf).
    repeat split; auto. set_solver. }
  destruct (String.eqb err "Already downloaded") eqn:Ead.
  { exists (skipped_add errs0 (pkg (tgt_cbdata t))), h. run_heap.
    repeat split; auto. }
  unfold irrecoverable. run_heap. unfold dict_truthy.
  destruct (bool_decide (default ∅ (h !! _irrecoverable errs0) ≠ ∅)) eqn:Et.
  - eexists errs0, _. split; [reflexivity|].
    repeat split; auto.
    + set_solver.
    + rewrite length_insert. lia.
    + intros l Hl _. rewrite list_lookup_insert_ne by auto. reflexivity.
    + intros Hi. rewrite Hi in Et. cbn [default] in Et.
      apply bool_decide_eq_true_1 in Et. exfalso. apply Et. reflexivity.
  - assert (Hnew : forall (X : ErrDict) (Y : ErrDict),
               (length h <= length (<[length h := Y]> (h ++ [X])))%nat
               /\ (forall l, (l < length h)%nat ->
                     <[length h := Y]> (h ++ [X]) !! l = h !! l)).
    { intros X Y. split.
      - rewrite length_insert, length_app. lia.
      - intros l Hl. rewrite list_lookup_insert_ne by lia.
        apply lookup_app_l; auto. }
    destruct (fatal errs0) as [msg|] eqn:Ef; [destruct (Py.str_truthy msg)|];
      (eexists errs0, _; split; [reflexivity|];
       split; [exact Ef|]; split; [reflexivity|]; split; [reflexivity|];
       split; [set_solver|]; split; [apply Hnew|];
       split; [intros l _ Hl; apply Hnew; exact Hl|];
       intros Hi; rewrite (proj2 (Hnew _ _));
       [exact Hi | apply lookup_lt_Some in Hi; exact Hi]).
Qed.

Lemma foldl_process_target (ts : list PackageTarget) :
  forall (errs0 : _DownloadErrors) (h : Heap),
  exists errs h',
    foldl_M process_target ts errs0 h = (inr errs, h')
    /\ fatal errs = fatal errs0
    /\ _irrecoverable errs = _irrecoverable errs0
    /\ _recoverable errs = _recoverable errs0
    /\ skipped errs = skipped errs0 ∪ skipped_of ts
    /\ (length h <= length h')%nat
    /\ (forall l, l ≠ _irrecoverable errs0 -> (l < length h)%nat ->
                  h' !! l = h !! l)
    /\ (h !! _irrecoverable errs0 = Some ∅ ->
        h' !! _irrecoverable errs0 = Some ∅).
Proof.
  induction ts as [|t ts IH]; intros errs0 h.
  - exists errs0, h. cbn [foldl_M]. unfold ret.
    repeat split; auto. unfold skipped_of. cbn. set_solver.
  - destruct (process_target_step errs0 t h)
      as (errs1 & h1 & E1 & F1 & I1 & R1 & S1 & L1 & P1 & Z1).
    destruct (IH errs1 h1)
      as (errs2 & h2 & E2 & F2 & I2 & R2 & S2 & L2 & P2 & Z2).
    exists errs2, h2. cbn [foldl_M]. unfold bind at 1. rewrite E1, E2.
    split; [reflexivity|]. split; [congruence|]. split; [congruence|].
    split; [congruence|].
    split; [rewrite S2, S1, skipped_of_cons; set_solver|].
    split; [lia|].
    split.
    + intros l Hl Hlt. rewrite P2; [apply P1; auto| congruence | lia].
    + intros Hi. rewrite <- I1. apply Z2. rewrite I1. auto.
Qed.

Section DownloadFacts.

Variable get_handle : Package -> Exc + Handle.
Variable pkgdir_of : Package -> string.
Variable librepo_attr : string -> option Z.
Variable CHECKSUM_UNKNOWN : Z.
Variable librepo_download_packages : list PackageTarget -> BatchOutcome.

Lemma map_M_librepo_target (payloads : list RPMPayload) :
  forall (h h1 : Heap) (targets : list PackageTarget),
    map_M (librepo_target get_handle pkgdir_of librepo_attr CHECKSUM_UNKNOWN)
          payloads h = (inr targets, h1) ->
    h1 = h /\ List.map tgt_cbdata targets = payloads.
Proof.
  induction payloads as [|p ps IH]; intros h h1 targets.
  - cbn [map_M]. unfold ret. intros [= <- <-]. auto.
  - cbn [map_M]. unfold bind at 1. unfold librepo_target at 1.
    destruct (get_handle (pkg p)) as [e|hd]; [unfold raise; discriminate|].
    destruct (returnIdSum (pkg p)) as [ctype csum]. unfold ret at 1.
    unfold bind at 1.
    destruct (map_M _ ps h) as [[e|ts] h'] eqn:E; [discriminate|].
    unfold ret. intros [= <- <-].
    destruct (IH _ _ _ E) as [-> Hm]. split; auto.
    cbn [List.map tgt_cbdata]. rewrite Hm. reflexivity.
Qed.

Lemma lookup_List_map {A B : Type} (f : A -> B) (l : list A) (i : nat) :
  List.map f l !! i = f <$> (l !! i).
Proof.
  revert i; induction l as [|x l IH]; intros [|i]; cbn; auto.
Qed.

Lemma imap_set_err_lookup (outcome : BatchOutcome)
    (targets : list PackageTarget) (i : nat) (t : PackageTarget) :
  imap (fun i tgt => set_err tgt (bo_err outcome i)) targets !! i = Some t ->
  exists t0, targets !! i = Some t0 /\ tgt_cbdata t = tgt_cbdata t0
             /\ tgt_err t = bo_err outcome i.
Proof.
  rewrite list_lookup_imap. destruct (targets !! i) as [t0|]; [|discriminate].
  cbn. intros [= <-]. exists t0. auto.
Qed.

Lemma download_payloads_run (payloads : list RPMPayload)
    (drpm : DeltaInfo) (h h1 : Heap) (targets : list PackageTarget) :
  map_M (librepo_target get_handle pkgdir_of librepo_attr CHECKSUM_UNKNOWN)
        payloads h = (inr targets, h1) ->
  let outcome := librepo_download_packages targets in
  (exists errs h',
     download_payloads get_handle pkgdir_of librepo_attr CHECKSUM_UNKNOWN
       librepo_download_packages payloads drpm h = (inr errs, h')
     /\ fatal errs =
        match bo_raised outcome with
        | Some (_, msg) =>
            Some (if Py.opt_truthy msg then Py.str_of_opt msg
                  else "<unspecified librepo error>")
        | None => None
        end
     /\ (forall p, p ∈ skipped errs <->
           exists i pload, payloads !! i = Some pload /\ pkg pload = p
                           /\ bo_err outcome i = Some "Already downloaded")
     /\ h' !! _recoverable errs = Some (bo_drpm_err outcome))
  /\ (forall errs tgt h0,
        tgt_err tgt = None
        \/ (exists err, tgt_err tgt = Some err
                        /\ Py.startswith err "Not finished" = true) ->
        process_target errs tgt h0 = (inr errs, h0)).
Proof.
  intros Hm outcome. split.
  2:{ intros errs tgt h0 [H|(err & H & Hnf)]; unfold process_target;
      rewrite H; [|rewrite Hnf]; reflexivity. }
  destruct (map_M_librepo_target _ _ _ _ Hm) as [-> Hcb].
  unfold download_payloads. unfold bind at 1. rewrite Hm.
  unfold _DownloadErrors__init__. run_heap.
  fold outcome.
  set (h2 := ((h ++ [∅]) ++ [∅]) ++ [bo_drpm_err outcome]).
  set (errs0 := set_recoverable _ _).
  destruct (foldl_process_target
              (imap (fun i tgt => set_err tgt (bo_err outcome i)) targets)
              errs0 h2)
    as (errs & h' & E & F & I & R & S & L & P & Z).
  exists errs, h'. split; [exact E|].
  split.
  { rewrite F. unfold errs0. destruct (bo_raised outcome) as [[c msg]|]; reflexivity. }
  split.
  { intros p. rewrite S. unfold errs0 at 1.
    assert (Hs0 : skipped (set_recoverable
                    match bo_raised outcome with
                    | Some (_, msg) =>
                        set_fatal
                          {| _irrecoverable := length h;
                             _recoverable := length (h ++ [∅]);
                             fatal := None; skipped := ∅ |}
                          (Some (if Py.opt_truthy msg then Py.str_of_opt msg
                                 else "<unspecified librepo error>"))
                    | None =>
                        {| _irrecoverable := length h;
                           _recoverable := length (h ++ [∅]);
                           fatal := None; skipped := ∅ |}
                    end (length ((h ++ [∅]) ++ [∅]))) = ∅).
    { destruct (bo_raised outcome) as [[c msg]|]; reflexivity. }
    rewrite Hs0, elem_of_union, elem_of_skipped_of. split.
    - intros [H|(i & t & Hi & Hp & He)]; [set_solver|].
      destruct (imap_set_err_lookup _ _ _ _ Hi) as (t0 & Ht0 & Hc & Herr).
      exists i, (tgt_cbdata t0). split.
      + rewrite <- Hcb, lookup_List_map, Ht0. reflexivity.
      + rewrite <- Hc. split; [exact Hp | congruence].
    - intros (i & pload & Hi & Hp & He). right.
      rewrite <- Hcb, lookup_List_map in Hi.
      destruct (targets !! i) as [t0|] eqn:Ht0; [|discriminate].
      cbn in Hi. injection Hi as Hi.
      exists i, (set_err t0 (bo_err outcome i)). split.
      + rewrite list_lookup_imap, Ht0. reflexivity.
      + split; [cbn; congruence | exact He]. }
  rewrite R.
  assert (Hr : _recoverable errs0 = length ((h ++ [∅]) ++ [∅])).
  { unfold errs0. reflexivity. }
  assert (Hi : _irrecoverable errs0 = length h).
  { unfold errs0. destruct (bo_raised outcome) as [[c msg]|]; reflexivity. }
  rewrite Hr, P.
  - unfold h2. apply heap_lookup_new.
  - rewrite Hi. rewrite !length_app. cbn. lia.
  - unfold h2. rewrite !length_app. cbn. lia.
Qed.

(** C3 (amended). When every target can be built, [download_payloads]
    returns a ledger in which: [fatal] is the message of the exception the
    batch primitive raised (or the placeholder when it has none) and [None]
    when it raised nothing; [skipped] holds exactly the packages whose target
    reports "Already downloaded", whether or not the primitive raised;
    [recoverable] is the dictionary of the delta engine; and a target without
    an error or with an unfinished one leaves the ledger as it is. *)
Theorem download_payloads_ledger (payloads : list RPMPayload)
    (drpm : DeltaInfo) (h h1 : Heap) (targets : list PackageTarget) :
  map_M (librepo_target get_handle pkgdir_of librepo_attr CHECKSUM_UNKNOWN)
        payloads h = (inr targets, h1) ->
  let outcome := librepo_download_packages targets in
  (exists errs h',
     download_payloads get_handle pkgdir_of librepo_attr CHECKSUM_UNKNOWN
       librepo_download_packages payloads drpm h = (inr errs, h')
     /\ fatal errs =
        match bo_raised outcome with
        | Some (_, msg) =>
            Some (if Py.opt_truthy msg then Py.str_of_opt msg
                  else "<unspecified librepo error>")
        | None => None
        end
     /\ (forall p, p ∈ skipped errs <->
           exists i pload, payloads !! i = Some pload /\ pkg pload = p
                           /\ bo_err outcome i = Some "Already downloaded")
     /\ h' !! _recoverable errs = Some (bo_drpm_err outcome))
  /\ (forall errs tgt h0,
        tgt_err tgt = None
        \/ (exists err, tgt_err tgt = Some err
                        /\ Py.startswith err "Not finished" = true) ->
        process_target errs tgt h0 = (inr errs, h0)).
Proof.
  intros Hm. exact (download_payloads_run payloads drpm h h1 targets Hm).
Qed.


End DownloadFacts.

Lemma download_payloads_ledger_witness :
  exists errs h',
    download_payloads Example.get_handle Example.pkgdir_of Example.librepo_attr
      0 Example.raising Example.payloads (mkDeltaInfo ∅) [] = (inr errs, h')
    /\ fatal errs = Some "Download failed"
    /\ Example.pkgA ∈ skipped errs.
Proof.
  destruct (download_payloads_ledger Example.get_handle Example.pkgdir_of
              Example.librepo_attr 0 Example.raising Example.payloads
              (mkDeltaInfo ∅) [] _ _ eq_refl)
    as [(errs & h' & E & F & S & R) _].
  exists errs, h'. split; [exact E|]. split; [exact F|].
  apply S. exists 0%nat, (mkRPMPayload Example.pkgA).
  repeat split; reflexivity.
Defined.

(** C3, as stated, fails: in a batch whose primitive raised, the target
    that reports "Already downloaded" is classified all the same. *)
Lemma download_payloads_classifies_after_raise :
  exists errs h' targets,
    download_payloads Example.get_handle Example.pkgdir_of Example.librepo_attr
      0 Example.raising Example.payloads (mkDeltaInfo ∅) [] = (inr errs, h')
    /\ bo_raised (Example.raising targets) = Some (10, Some "Download failed")
    /\ Example.pkgA ∈ skipped errs
    /\ ~ ledger_as_claimed (Example.raising targets) targets errs.
Proof.
  destruct (download_payloads_run Example.get_handle Example.pkgdir_of
              Example.librepo_attr 0 Example.raising Example.payloads
              (mkDeltaInfo ∅) [] _ _ eq_refl)
    as [(errs & h' & E & F & S & R) _].
  assert (HA : Example.pkgA ∈ skipped errs).
  { apply S. exists 0%nat, (mkRPMPayload Example.pkgA).
    repeat split; reflexivity. }
  exists errs, h', []. split; [exact E|]. split; [reflexivity|].
  split; [exact HA|].
  unfold ledger_as_claimed. cbn [bo_raised Example.raising].
  intros [_ H]. rewrite H in HA. set_solver.
Qed.

Lemma irrecoverable_view_cases_witness :
  fst (irrecoverable_view (mkDownloadErrors 0 1 (Some "Download failed") ∅)
                          [∅; ∅])
  = inr {[ inl "" := ["Download failed"] ]}
  /\ fst (irrecoverable_view (mkDownloadErrors 0 1 (Some "Download failed") ∅)
                             [ {[ inr Example.pkgC := ["No more mirrors"] ]}; ∅ ])
     = inr {[ inr Example.pkgC := ["No more mirrors"] ]}
  /\ fst (irrecoverable_view (mkDownloadErrors 0 1 None ∅) [∅; ∅]) = inr ∅.
Proof.
  split; [|split].
  - apply (proj1 (proj2 (irrecoverable_view_cases
                           (mkDownloadErrors 0 1 (Some "Download failed") ∅)
                           [∅; ∅] ∅ eq_refl)) eq_refl "Download failed" eq_refl).
    discriminate.
  - apply (proj1 (irrecoverable_view_cases
                    (mkDownloadErrors 0 1 (Some "Download failed") ∅)
                    [ {[ inr Example.pkgC := ["No more mirrors"] ]}; ∅ ]
                    _ eq_refl)).
    apply map_non_empty_singleton.
  - apply (proj2 (proj2 (irrecoverable_view_cases
                           (mkDownloadErrors 0 1 None ∅) [∅; ∅] ∅ eq_refl))
             eq_refl eq_refl).
Defined.

(** ** Credentials of a remote handle *)

Ltac handle_fields :=
  cbn [h_gpgcheck h_maxmirrortries h_interruptible h_yumdlist h_varsub
       h_destdir h_urls h_local h_mirrorlist h_fastestmirror
       h_fastestmirrorcache h_ipresolve h_userpwd h_hmfcb h_progresscb
       h_fastestmirrorcb h_maxspeed h_proxy h_lowspeedlimit h_lowspeedtime
       h_connecttimeout h_proxyuserpwd h_sslverifypeer h_sslverifyhost
       h_fetchmirrors h_metalink h_mirrors
       set_gpgcheck set_maxmirrortries set_interruptible set_yumdlist
       set_varsub set_destdir set_urls set_local set_mirrorlist
       set_fastestmirror set_fastestmirrorcache set_ipresolve set_userpwd
       set_hmfcb set_progresscb set_fastestmirrorcb set_maxspeed set_proxy
       set_lowspeedlimit set_lowspeedtime set_connecttimeout
       set_proxyuserpwd set_sslverifypeer set_sslverifyhost set_fetchmirrors
       set_metalink set_mirrors].

(** What [_handle_new_remote] sets apart from the urls. *)
Lemma handle_new_remote_fields (env : Repo.Env) (self : Repo.t)
    (destdir : option string) (mirror_setup : bool) (h : Handle) :
  Repo._handle_new_remote env self destdir mirror_setup = inr h ->
  h_destdir h = destdir
  /\ h_local h = h_local (Repo.librepo_new_handle env)
  /\ h_fetchmirrors h = h_fetchmirrors (Repo.librepo_new_handle env)
  /\ h_gpgcheck h = Repo.repo_gpgcheck self
  /\ h_proxyuserpwd h =
     _user_pass_str (Repo.urllib_quote env) (Repo.proxy_username self)
                    (Repo.proxy_password self)
  /\ h_userpwd h =
     match Repo.username self with
     | Some user =>
         if Py.str_truthy user then
           Some (if Py.opt_truthy (Repo.password self)
                 then user +:+ ":" +:+ Py.str_of_opt (Repo.password self)
                 else user)
         else h_userpwd (Repo.librepo_new_handle env)
     | None => h_userpwd (Repo.librepo_new_handle env)
     end.
Proof.
  unfold Repo._handle_new_remote, Repo._Handle__init__, Repo._set_ip_resolve.
  intros H.
  repeat match type of H with
         | context [match ?x with _ => _ end] =>
             lazymatch type of x with
             | Handle => fail
             | sum _ _ => fail
             | Repo.Env => fail
             | _ => destruct x
             end
         end;
    try discriminate; injection H as <-; handle_fields;
    repeat split; reflexivity.
Qed.

(** C9 (amended). On every remote handle built from a repository, the
    proxy credentials are the URL-escaped ["user:password"] of
    [_user_pass_str] (an absent password giving nothing after the colon, an
    absent proxy user giving no credentials); the repository's own
    credentials are set only for a non-empty user name, unescaped, as
    ["user:password"] when the password is non-empty and as ["user"] alone
    otherwise. *)
Theorem handle_new_remote_credentials (env : Repo.Env) (self : Repo.t)
    (destdir : option string) (mirror_setup : bool) (h : Handle) :
  Repo._handle_new_remote env self destdir mirror_setup = inr h ->
  h_proxyuserpwd h =
    match Repo.proxy_username self with
    | None => None
    | Some user =>
        Some (Repo.urllib_quote env user +:+ ":" +:+
              match Repo.proxy_password self with
              | None => ""
              | Some password => Repo.urllib_quote env password
              end)
    end
  /\ h_userpwd h =
     match Repo.username self with
     | Some user =>
         if Py.str_truthy user then
           Some (if Py.opt_truthy (Repo.password self)
                 then user +:+ ":" +:+ Py.str_of_opt (Repo.password self)
                 else user)
         else h_userpwd (Repo.librepo_new_handle env)
     | None => h_userpwd (Repo.librepo_new_handle env)
     end.
Proof.
  intros H.
  destruct (handle_new_remote_fields env self destdir mirror_setup h H)
    as (_ & _ & _ & _ & Hp & Hu).
  split; [exact Hp | exact Hu].
Qed.

Lemma handle_new_remote_credentials_witness :
  exists h,
    Repo._handle_new_remote (Example.env [])
      (Example.repo None (Some "jo e") (Some "s3cr:t") false 60 3 false None)
      (Some "/t") true = inr h
    /\ h_proxyuserpwd h = Some "p%20u:"
    /\ h_userpwd h = Some "jo e:s3cr:t".
Proof.
  eexists. split; [reflexivity|].
  exact (handle_new_remote_credentials (Example.env [])
           (Example.repo None (Some "jo e") (Some "s3cr:t") false 60 3 false
                         None)
           (Some "/t") true _ eq_refl).
Defined.

(** C9, as stated, fails for the repository's own credentials: the user
    name ["jo e"] without a password reaches the engine as it is, not as
    the escaped ["jo%20e:"]. *)
Lemma handle_new_remote_userpwd_not_escaped :
  exists h,
    Repo._handle_new_remote (Example.env [])
      (Example.repo None (Some "jo e") None false 60 3 false None)
      (Some "/t") true = inr h
    /\ h_userpwd h = Some "jo e"
    /\ _user_pass_str Example.quote (Some "jo e") None = Some "jo%20e:"
    /\ h_userpwd h <> _user_pass_str Example.quote (Some "jo e") None.
Proof.
  eexists. split; [reflexivity|].
  split; [reflexivity|]. split; [reflexivity|].
  vm_compute. discriminate.
Qed.

(** ** Paths and the file system *)

Lemma append_cons (x : ascii) (a b : string) :
  String x a +:+ b = String x (a +:+ b).
Proof. reflexivity. Qed.

Lemma append_nil (b : string) : "" +:+ b = b.
Proof. reflexivity. Qed.

Lemma prefix_app (a b : string) : String.prefix a (a +:+ b) = true.
Proof.
  induction a as [|c a IH].
  - rewrite append_nil. destruct b; reflexivity.
  - rewrite append_cons. cbn [String.prefix].
    destruct (ascii_dec c c); [exact IH | congruence].
Qed.

Lemma append_assoc (a b c : string) : (a +:+ b) +:+ c = a +:+ b +:+ c.
Proof.
  induction a as [|x a IH]; [reflexivity|].
  rewrite !append_cons, IH. reflexivity.
Qed.

Lemma startswith_child (dir name : string) :
  Py.startswith (dir +:+ "/" +:+ name) (dir +:+ "/") = true.
Proof.
  unfold Py.startswith. rewrite <- append_assoc. apply prefix_app.
Qed.

Lemma write_files_frame (dir : string) (files : list (string * string))
    (now : Z) (fs : gmap string File) (p : string) :
  Py.startswith p (dir +:+ "/") = false ->
  write_files dir files now fs !! p = fs !! p.
Proof.
  intros Hp. induction files as [|nf files IH]; cbn [write_files foldr].
  - reflexivity.
  - rewrite lookup_insert_ne; [exact IH|].
    intros <-. rewrite startswith_child in Hp. discriminate.
Qed.

Lemma clear_dir_frame (dir : string) (fs : gmap string File) (p : string) :
  Py.startswith p (dir +:+ "/") = false ->
  clear_dir dir fs !! p = fs !! p.
Proof.
  intros Hp. unfold clear_dir.
  destruct (fs !! p) as [f|] eqn:E.
  - apply map_lookup_filter_Some. split; [exact E | exact Hp].
  - apply map_lookup_filter_None. left. exact E.
Qed.

Lemma under_startswith (dir p : string) :
  under dir p = false -> Py.startswith p (dir +:+ "/") = false.
Proof.
  unfold under. intros H. apply orb_false_iff in H. tauto.
Qed.

Lemma rm_rf_frame (dir : string) (fs : gmap string File) (p : string) :
  under dir p = false ->
  rm_rf dir fs !! p = fs !! p.
Proof.
  intros Hp. unfold rm_rf.
  destruct (fs !! p) as [f|] eqn:E.
  - apply map_lookup_filter_Some. split; [exact E | exact Hp].
  - apply map_lookup_filter_None. left. exact E.
Qed.


(** ** Running the repository *)

Ltac run :=
  cbv beta iota zeta delta
      [bind ret raise gets get modify try_except try_finally
       Repo.get_self Repo.get_world Repo.update_self Repo.update_world
       Repo.emit Repo.lift];
  cbn [Repo.st_self Repo.st_world Repo.st_log w_fs w_now w_ticks with_fs
       tick fs_of fst snd].

Ltac run_in H :=
  cbv beta iota zeta delta
      [bind ret raise gets get modify try_except try_finally
       Repo.get_self Repo.get_world Repo.update_self Repo.update_world
       Repo.emit Repo.lift] in H;
  cbn [Repo.st_self Repo.st_world Repo.st_log w_fs w_now w_ticks with_fs
       tick fs_of fst snd] in H.

(** One call of the engine: the repository object is left alone, the call
    is logged, the clock stands, and only files below the destination of a
    handle that is not local change. *)
Lemma perform_spec (env : Repo.Env) (h : Handle) (s s' : Repo.State)
    (r : Exc + Result * Handle) :
  Repo._Handle_perform env h s = (r, s') ->
  Repo.st_self s' = Repo.st_self s
  /\ Repo.st_log s' = Repo.st_log s ++ [Repo.EvPerform h]
  /\ w_now (Repo.st_world s') = w_now (Repo.st_world s)
  /\ (forall p,
        h_local h = true
        \/ (forall d, h_destdir h = Some d ->
                      Py.startswith p (d +:+ "/") = false) ->
        fs_of s' !! p = fs_of s !! p)
  /\ match r with
     | inl e =>
         exists code msg,
           Repo.librepo_perform env h (Repo.st_world s) = inl (code, msg)
           /\ e = DetailedLibrepoError code msg (Repo._Handle_source h)
     | inr (res, h') =>
         exists f,
           Repo.librepo_perform env h (Repo.st_world s) = inr f
           /\ res = fetched_result f
           /\ h' = set_mirrors (fetched_mirrors f)
                     (set_metalink (fetched_metalink f) h)
     end.
Proof.
  unfold Repo._Handle_perform. run.
  destruct (Repo.librepo_perform env h (Repo.st_world s)) as [[code msg]|f].
  - run. intros [= <- <-]. cbn [Repo.st_self Repo.st_log Repo.st_world w_now w_fs].
    repeat split; eauto.
  - destruct (h_local h) eqn:El; [|destruct (h_destdir h) as [d|] eqn:Ed];
      run; intros [= <- <-];
      cbn [Repo.st_self Repo.st_log Repo.st_world w_now w_fs];
      (repeat split; eauto).
    intros p [Hp|Hp]; [discriminate|].
    apply write_files_frame. apply Hp. reflexivity.
Qed.

Lemma handle_load_core_spec (env : Repo.Env) (h : Handle) (s s' : Repo.State)
    (r : Exc + Metadata.t * Handle) :
  Repo._handle_load_core env h s = (r, s') ->
  Repo.st_self s' = Repo.st_self s
  /\ Repo.st_log s' = Repo.st_log s ++ [Repo.EvPerform h]
  /\ w_now (Repo.st_world s') = w_now (Repo.st_world s)
  /\ (forall p,
        h_local h = true
        \/ (forall d, h_destdir h = Some d ->
                      Py.startswith p (d +:+ "/") = false) ->
        fs_of s' !! p = fs_of s !! p)
  /\ match r with
     | inl e =>
         exists code msg,
           Repo.librepo_perform env h (Repo.st_world s) = inl (code, msg)
           /\ e = DetailedLibrepoError code msg (Repo._Handle_source h)
     | inr (md, h') =>
         exists f,
           Repo.librepo_perform env h (Repo.st_world s) = inr f
           /\ h' = set_mirrors (fetched_mirrors f)
                     (set_metalink (fetched_metalink f) h)
           /\ md = Metadata.__init__ (fetched_result f) h'
     end.
Proof.
  unfold Repo._handle_load_core. run.
  destruct (Repo._Handle_perform env h s) as [[e|[res h']] s1] eqn:E;
    intros [= <- <-]; apply perform_spec in E;
    destruct E as (Hs & Hl & Hn & Hf & Hr); repeat split; auto.
  destruct Hr as (f & Hp & -> & ->). exists f. auto.
Qed.

(** A load through a handle: the repository object is left alone; the
    engine is called on this handle only, besides the key import; files
    change only below the destination of the handle and, with the signature
    check on, below the key ring. *)
Lemma handle_load_spec (env : Repo.Env) (h : Handle) (s s' : Repo.State)
    (r : Exc + Metadata.t * Handle) :
  Repo._handle_load env h s = (r, s') ->
  Repo.st_self s' = Repo.st_self s
  /\ w_now (Repo.st_world s') = w_now (Repo.st_world s)
  /\ (exists l, Repo.st_log s' = Repo.st_log s ++ l
                /\ Forall (fun e => e = Repo.EvPerform h
                                    \/ e = Repo.EvImportRepoKeys) l)
  /\ (forall p,
        (forall d, h_destdir h = Some d ->
                   Py.startswith p (d +:+ "/") = false) ->
        Repo.repo_gpgcheck (Repo.st_self s) = false
        \/ Py.startswith p (Repo.pubring_dir (Repo.st_self s) +:+ "/") = false ->
        fs_of s' !! p = fs_of s !! p)
  /\ match r with
     | inl e => is_Some (h_destdir h) -> exists code msg src,
                  e = DetailedLibrepoError code msg src
     | inr (md, h') =>
         exists f w,
           Repo.librepo_perform env h w = inr f
           /\ h' = set_mirrors (fetched_mirrors f)
                     (set_metalink (fetched_metalink f) h)
           /\ md = Metadata.__init__ (fetched_result f) h'
     end.
Proof.
  unfold Repo._handle_load. run.
  destruct (Repo.repo_gpgcheck (Repo.st_self s)) eqn:Eg; cbn [negb].
  2:{ intros E. apply handle_load_core_spec in E.
      destruct E as (Hs & Hl & Hn & Hf & Hr). repeat split; auto.
      - exists [Repo.EvPerform h]. split; [auto|].
        constructor; [left; reflexivity | constructor].
      - destruct r as [e|[md h']].
        + destruct Hr as (code & msg & _ & ->). eauto.
        + destruct Hr as (f & Hp & -> & ->). eauto. }
  unfold Repo._handle_load_with_pubring.
  destruct (Repo._handle_load_core env h s) as [[e|[md h']] s1] eqn:E1;
    apply handle_load_core_spec in E1;
    destruct E1 as (Hs1 & Hl1 & Hn1 & Hf1 & Hr1).
  2:{ intros [= <- <-]. repeat split; auto.
      - exists [Repo.EvPerform h]. split; [auto|].
        constructor; [left; reflexivity | constructor].
      - destruct Hr1 as (f & Hp & -> & ->). eauto. }
  destruct Hr1 as (code & msg & Hp1 & ->). cbn [Repo.is_DetailedLibrepoError].
  destruct (code =? Repo.LRE_BADGPG env); cbn [negb]; run.
  2:{ intros [= <- <-]. repeat split; auto.
    - exists [Repo.EvPerform h]. split; [auto|].
      constructor; [left; reflexivity | constructor].
    - eauto. }
  unfold Repo.clear_destdir.
  destruct (h_destdir h) as [d|] eqn:Ed; run.
  2:{ intros [= <- <-]. repeat split; auto.
      - exists [Repo.EvPerform h]. split; [auto|].
        constructor; [left; reflexivity | constructor].
      - intros [? ?]; discriminate. }
  unfold Repo.call_import_repo_keys. run.
  match goal with
  | |- context [Repo._handle_load_core env h ?st] =>
      set (s2 := st);
      destruct (Repo._handle_load_core env h s2) as [r2 s3] eqn:E2
  end.
  apply handle_load_core_spec in E2.
  destruct E2 as (Hs2 & Hl2 & Hn2 & Hf2 & Hr2).
  assert (Hres : (r2, s3) = (r, s') -> r2 = r /\ s3 = s').
  { intros [= -> ->]; auto. }
  intros Hrun.
  assert (Hrun' : (r2, s3) = (r, s')).
  { destruct r2 as [e2|[md2 h2]]; exact Hrun. }
  destruct (Hres Hrun') as [<- <-]. clear Hrun Hrun' Hres.
  unfold s2 in *;
    cbn [Repo.st_self Repo.st_log Repo.st_world w_now w_fs fs_of with_fs]
    in Hs2, Hl2, Hn2, Hf2.
  split; [congruence|]. split; [congruence|].
  split.
  { exists [Repo.EvPerform h; Repo.EvImportRepoKeys; Repo.EvPerform h].
    split.
    - rewrite Hl2, Hl1, <- !app_assoc. reflexivity.
    - repeat (constructor;
              [first [left; reflexivity | right; reflexivity]|]).
      constructor. }
  split.
  { intros p Hd Hk.
    rewrite Hf2 by (right; intros d0 Hd0; apply Hd; congruence).
    rewrite write_files_frame.
    - rewrite clear_dir_frame by (apply Hd; reflexivity).
      apply Hf1. right. exact Hd.
    - destruct Hk as [Hk|Hk]; [discriminate|].
      rewrite Hs1. exact Hk. }
  destruct r2 as [e2|[md2 h2]].
  - destruct Hr2 as (c2 & m2 & _ & ->). eauto.
  - destruct Hr2 as (f & Hp & -> & ->). eauto.
Qed.

Lemma set_expired_same (self : Repo.t) (b : bool) :
  Repo._expired self = b -> Repo.set__expired b self = self.
Proof. destruct self. cbn. intros ->. reflexivity. Qed.

Lemma handle_new_local_is_local (env : Repo.Env) (self : Repo.t)
    (destdir : string) :
  h_local (Repo._handle_new_local env self destdir) = true
  /\ h_destdir (Repo._handle_new_local env self destdir) = Some destdir.
Proof. split; reflexivity. Qed.

(** [_reset_metadata_expired] on a repository with a snapshot. *)
Lemma reset_metadata_expired_spec (s s' : Repo.State)
    (md : Metadata.t) (r : Exc + unit) :
  Repo.metadata (Repo.st_self s) = Some md ->
  Repo._reset_metadata_expired s = (r, s') ->
  Repo.st_world s' = Repo.st_world s
  /\ Repo.st_log s' = Repo.st_log s
  /\ (Repo._expired (Repo.st_self s) = true ->
      r = inr tt /\ Repo.st_self s' = Repo.st_self s)
  /\ (Repo._expired (Repo.st_self s) = false ->
      match Metadata.age md (Repo.st_world s) with
      | inl e => r = inl e /\ Repo.st_self s' = Repo.st_self s
      | inr age =>
          r = inr tt
          /\ Repo.st_self s' =
             Repo.set__expired
               (if Repo.metadata_expire (Repo.st_self s) =? -1 then false
                else Repo.metadata_expire (Repo.st_self s) <=? age)
               (Repo.st_self s)
      end).
Proof.
  intros Hmd. unfold Repo._reset_metadata_expired. run.
  destruct (Repo._expired (Repo.st_self s)) eqn:Ee.
  - intros [= <- <-]. repeat split; auto; discriminate.
  - rewrite Hmd.
    destruct (Metadata.age md (Repo.st_world s)) as [e|age]; run.
    + intros [= <- <-]. repeat split; auto; discriminate.
    + destruct (Repo.metadata_expire (Repo.st_self s) =? -1); run;
        intros [= <- <-]; cbn [Repo.st_self Repo.st_world Repo.st_log];
        repeat split; auto; try discriminate.
Qed.

(** [_try_cache] on a repository without a snapshot: it builds one local
    handle and loads through it; it answers [False] and leaves the
    repository as it was when the load fails; it answers [True] with the
    snapshot stored and the expired flag computed when the load succeeds;
    it raises only when the age of the loaded snapshot cannot be read. *)
Lemma try_cache_spec (env : Repo.Env) (s s' : Repo.State) (r : Exc + bool) :
  Repo.metadata (Repo.st_self s) = None ->
  Repo._try_cache env s = (r, s') ->
  let self := Repo.st_self s in
  let h := Repo._handle_new_local env self (Repo.cachedir self) in
  w_now (Repo.st_world s') = w_now (Repo.st_world s)
  /\ (exists l,
        Repo.st_log s' =
          Repo.st_log s ++ Repo.EvHandleNewLocal (Repo.cachedir self) :: l
        /\ Forall (fun e => e = Repo.EvPerform h
                            \/ e = Repo.EvImportRepoKeys) l)
  /\ (forall p,
        Py.startswith p (Repo.cachedir self +:+ "/") = false ->
        Repo.repo_gpgcheck self = false
        \/ Py.startswith p (Repo.pubring_dir self +:+ "/") = false ->
        fs_of s' !! p = fs_of s !! p)
  /\ match r with
     | inr false => Repo.st_self s' = self
     | inr true =>
         exists md b f w,
           Repo.librepo_perform env h w = inr f
           /\ Repo.st_self s' =
              Repo.set__expired b (Repo.set_metadata (Some md) self)
           /\ (Repo._expired self = true -> b = true)
           /\ (Repo._expired self = false ->
               exists age,
                 Metadata.age md (Repo.st_world s') = inr age
                 /\ b = if Repo.metadata_expire self =? -1 then false
                        else Repo.metadata_expire self <=? age)
     | inl e =>
         exists md f w,
           Repo.librepo_perform env h w = inr f
           /\ Repo.st_self s' = Repo.set_metadata (Some md) self
           /\ Repo._expired self = false
           /\ Metadata.age md (Repo.st_world s') = inl e
     end.
Proof.
  intros Hmd Hrun self h. revert Hrun.
  unfold Repo._try_cache. run. rewrite Hmd.
  unfold Repo.new_local. run.
  match goal with
  | |- context [Repo._handle_load env ?h ?st] =>
      set (s1 := st);
      destruct (Repo._handle_load env h s1) as [[e|[md h']] s2] eqn:E
  end; apply handle_load_spec in E;
    destruct E as (Hs & Hn & (l & Hl & Hall) & Hf & Hr);
    unfold s1 in Hs, Hn, Hl, Hf;
    cbn [Repo.st_self Repo.st_world Repo.st_log fs_of] in Hs, Hn, Hl, Hf.
  - destruct Hr as (code & msg & src & ->); [eexists; reflexivity|].
    cbn [Repo.is_DetailedLibrepoError_or_IOError]. run.
    intros [= <- <-].
    split; [exact Hn|]. split.
    { exists l. split; [rewrite Hl, <- app_assoc; reflexivity | exact Hall]. }
    split; [|exact Hs].
    intros p Hp Hk. apply Hf; [|exact Hk].
    intros d [= <-]. exact Hp.
  - run.
    match goal with
    | |- context [Repo._reset_metadata_expired ?st] =>
        set (s3 := st);
        destruct (Repo._reset_metadata_expired s3) as [r4 s4] eqn:E4
    end.
    assert (Hmd3 : Repo.metadata (Repo.st_self s3) = Some md).
    { unfold s3. cbn [Repo.st_self]. destruct (Repo.st_self s2); reflexivity. }
    destruct (reset_metadata_expired_spec s3 s4 md r4 Hmd3 E4)
      as (Hw4 & Hl4 & Ht4 & Hf4).
    assert (Hself3 : Repo.st_self s3
                     = Repo.set_metadata (Some md) (Repo.st_self s)).
    { unfold s3. cbn [Repo.st_self]. rewrite Hs. reflexivity. }
    assert (Hexp3 : Repo._expired (Repo.st_self s3)
                    = Repo._expired (Repo.st_self s)).
    { rewrite Hself3. destruct (Repo.st_self s); reflexivity. }
    assert (Hme3 : Repo.metadata_expire (Repo.st_self s3)
                   = Repo.metadata_expire (Repo.st_self s)).
    { rewrite Hself3. destruct (Repo.st_self s); reflexivity. }
    unfold s3 in Hw4, Hl4; cbn [Repo.st_world Repo.st_log] in Hw4, Hl4.
    destruct Hr as (f & w & Hp & Hh' & Hmdf).
    intros Hrun.
    assert (Hfr : forall p,
               Py.startswith p (Repo.cachedir self +:+ "/") = false ->
               Repo.repo_gpgcheck self = false
               \/ Py.startswith p (Repo.pubring_dir self +:+ "/") = false ->
               fs_of s4 !! p = fs_of s !! p).
    { intros p Hpp Hk. unfold fs_of. rewrite Hw4. apply Hf; [|exact Hk].
      intros d [= <-]. exact Hpp. }
    assert (Hlog : exists l0,
               Repo.st_log s4 =
                 Repo.st_log s ++ Repo.EvHandleNewLocal (Repo.cachedir self) :: l0
               /\ Forall (fun e => e = Repo.EvPerform h
                                   \/ e = Repo.EvImportRepoKeys) l0).
    { exists l. split; [rewrite Hl4, Hl, <- app_assoc; reflexivity | exact Hall]. }
    destruct (Repo._expired (Repo.st_self s)) eqn:Ee.
    + destruct (Ht4 Hexp3) as [-> Hs4]. run_in Hrun.
      injection Hrun as <- <-.
      split; [congruence|]. split; [exact Hlog|]. split; [exact Hfr|].
      exists md, true, f, w. split; [exact Hp|].
      split.
      { rewrite Hs4, Hself3. symmetry. apply set_expired_same.
        destruct (Repo.st_self s); cbn in *; congruence. }
      split; [intros _; reflexivity | unfold self; rewrite Ee; discriminate].
    + specialize (Hf4 Hexp3).
      change (Repo.st_world s3) with (Repo.st_world s2) in Hf4.
      destruct (Metadata.age md (Repo.st_world s2)) as [e|age] eqn:Ea.
      * destruct Hf4 as [-> Hs4]. run_in Hrun. injection Hrun as <- <-.
        split; [congruence|]. split; [exact Hlog|]. split; [exact Hfr|].
        exists md, f, w. rewrite Hw4.
        split; [exact Hp|]. split; [rewrite Hs4; exact Hself3|].
        split; [exact Ee | exact Ea].
      * destruct Hf4 as [-> Hs4]. run_in Hrun. injection Hrun as <- <-.
        split; [congruence|]. split; [exact Hlog|]. split; [exact Hfr|].
        eexists md, _, f, w. split; [exact Hp|].
        split; [rewrite Hs4, Hme3, Hself3; reflexivity|].
        split; [unfold self; rewrite Ee; discriminate|].
        intros _. exists age. rewrite Hw4. split; [exact Ea | reflexivity].
Qed.

(** ** Cache-only mode *)

Lemma clear_dir_gone (dir : string) (fs : gmap string File) (p : string) :
  Py.startswith p (dir +:+ "/") = true -> clear_dir dir fs !! p = None.
Proof.
  intros Hp. unfold clear_dir. apply map_lookup_filter_None. right.
  intros f _. cbn [fst]. rewrite Hp. discriminate.
Qed.

(** The two traces of a load through a handle: one call of the engine; or,
    with the signature check on and a bad signature reported, the
    destination cleared, the keys imported and a second call. *)
Lemma handle_load_trace (env : Repo.Env) (h : Handle) (s s' : Repo.State)
    (r : Exc + Metadata.t * Handle) :
  Repo._handle_load env h s = (r, s') ->
  (Repo.st_log s' = Repo.st_log s ++ [Repo.EvPerform h]
   /\ (h_local h = true -> forall p, fs_of s' !! p = fs_of s !! p))
  \/ (Repo.repo_gpgcheck (Repo.st_self s) = true
      /\ (exists msg,
            Repo.librepo_perform env h (Repo.st_world s)
            = inl (Repo.LRE_BADGPG env, msg))
      /\ Repo.st_log s' =
         Repo.st_log s
         ++ [Repo.EvPerform h; Repo.EvImportRepoKeys; Repo.EvPerform h]
      /\ (h_local h = true ->
          forall d p,
            h_destdir h = Some d ->
            Py.startswith p (d +:+ "/") = true ->
            Py.startswith p (Repo.pubring_dir (Repo.st_self s) +:+ "/")
            = false ->
            fs_of s' !! p = None)).
Proof.
  unfold Repo._handle_load. run.
  destruct (Repo.repo_gpgcheck (Repo.st_self s)) eqn:Eg; cbn [negb].
  2:{ intros E. apply handle_load_core_spec in E.
      destruct E as (_ & Hl & _ & Hf & _). left. split; [exact Hl|].
      intros Hloc p. apply Hf. left. exact Hloc. }
  unfold Repo._handle_load_with_pubring.
  destruct (Repo._handle_load_core env h s) as [[e|[md h']] s1] eqn:E1;
    apply handle_load_core_spec in E1;
    destruct E1 as (Hs1 & Hl1 & Hn1 & Hf1 & Hr1).
  2:{ intros [= <- <-]. left. split; [exact Hl1|].
      intros Hloc p. apply Hf1. left. exact Hloc. }
  destruct Hr1 as (code & msg & Hp1 & ->). cbn [Repo.is_DetailedLibrepoError].
  destruct (code =? Repo.LRE_BADGPG env) eqn:Eb; cbn [negb]; run.
  2:{ intros [= <- <-]. left. split; [exact Hl1|].
      intros Hloc p. apply Hf1. left. exact Hloc. }
  apply Z.eqb_eq in Eb. subst code.
  unfold Repo.clear_destdir.
  destruct (h_destdir h) as [d|] eqn:Ed; run.
  2:{ intros [= <- <-]. left. split; [exact Hl1|].
      intros Hloc p. apply Hf1. left. exact Hloc. }
  unfold Repo.call_import_repo_keys. run.
  match goal with
  | |- context [Repo._handle_load_core env h ?st] =>
      set (s2 := st);
      destruct (Repo._handle_load_core env h s2) as [r2 s3] eqn:E2
  end.
  apply handle_load_core_spec in E2. destruct E2 as (_ & Hl2 & _ & Hf2 & _).
  unfold s2 in Hl2, Hf2. cbn [Repo.st_log] in Hl2.
  intros Hrun.
  assert (Hrun' : (r2, s3) = (r, s')).
  { destruct r2 as [e2|[md2 h2]]; exact Hrun. }
  injection Hrun' as <- <-.
  right. split; [reflexivity|]. split; [exists msg; exact Hp1|].
  split; [rewrite Hl2, Hl1, <- !app_assoc; reflexivity|].
  intros Hloc d0 p [= <-] Hp Hk.
  rewrite Hf2 by (left; exact Hloc).
  unfold fs_of, with_fs. cbn [Repo.st_world w_fs].
  rewrite Hs1, write_files_frame by exact Hk.
  apply clear_dir_gone. exact Hp.
Qed.

(** [_try_cache] answering [False]: the repository object is as before, and
    the trace is one of the two of the local handle on the cache
    directory. *)
Lemma try_cache_false_trace (env : Repo.Env) (s s' : Repo.State) :
  Repo.metadata (Repo.st_self s) = None ->
  Repo._try_cache env s = (inr false, s') ->
  let self := Repo.st_self s in
  let h := Repo._handle_new_local env self (Repo.cachedir self) in
  (Repo.st_log s' =
   Repo.st_log s ++ [Repo.EvHandleNewLocal (Repo.cachedir self);
                     Repo.EvPerform h]
   /\ forall p, fs_of s' !! p = fs_of s !! p)
  \/ (Repo.repo_gpgcheck self = true
      /\ (exists msg,
            Repo.librepo_perform env h (Repo.st_world s)
            = inl (Repo.LRE_BADGPG env, msg))
      /\ Repo.st_log s' =
         Repo.st_log s ++ [Repo.EvHandleNewLocal (Repo.cachedir self);
                           Repo.EvPerform h; Repo.EvImportRepoKeys;
                           Repo.EvPerform h]
      /\ forall p,
           Py.startswith p (Repo.cachedir self +:+ "/") = true ->
           Py.startswith p (Repo.pubring_dir self +:+ "/") = false ->
           fs_of s' !! p = None).
Proof.
  intros Hmd Hrun self h. revert Hrun.
  unfold Repo._try_cache. run. rewrite Hmd.
  unfold Repo.new_local. run. fold self. fold h.
  match goal with
  | |- context [Repo._handle_load env h ?st] =>
      set (s1 := st);
      destruct (Repo._handle_load env h s1) as [[e|[md h']] s2] eqn:E
  end.
  - apply handle_load_trace in E.
    unfold s1 in E. cbn [Repo.st_self Repo.st_world Repo.st_log fs_of] in E.
    fold self in E.
    destruct (Repo.is_DetailedLibrepoError_or_IOError e); run;
      [|discriminate].
    intros [= <-].
    destruct E as [(Hl & Hf)|(Hg & Hp & Hl & Hf)].
    + left. split; [rewrite Hl, <- app_assoc; reflexivity|].
      intros p. apply Hf. reflexivity.
    + right. split; [exact Hg|]. split; [exact Hp|].
      split; [rewrite Hl, <- app_assoc; reflexivity|].
      intros p Hc Hk. apply (Hf eq_refl (Repo.cachedir self) p);
        [reflexivity | exact Hc | exact Hk].
  - run.
    match goal with
    | |- context [Repo._reset_metadata_expired ?st] =>
        destruct (Repo._reset_metadata_expired st) as [[e4|[]] s4]
    end; run; discriminate.
Qed.

(** C2. In cache-only mode, without a snapshot in memory and with no
    loadable local cache ([_try_cache] answers [False]), [load] raises the
    cache-only error and the repository object is as before.  Up to there
    the only handle built and performed is the local handle on the cache
    directory: either it is performed once and no file changes; or, with
    the signature check on and a bad signature reported by that handle,
    the cache directory is cleared, the keys are imported and the handle
    is performed a second time.  Without the signature check, or without
    a bad signature, every call stays on the machine. *)
Theorem load_only_cache_without_cache (env : Repo.Env) (s s' : Repo.State) :
  Repo.sync_strategy (Repo.st_self s) = SYNC_ONLY_CACHE ->
  Repo.metadata (Repo.st_self s) = None ->
  Repo._try_cache env s = (inr false, s') ->
  let self := Repo.st_self s in
  let h := Repo._handle_new_local env self (Repo.cachedir self) in
  Repo.load env s =
    (inl (RepoError ("Cache-only enabled but no cache for '"
                     +:+ Repo.id_ self +:+ "'")), s')
  /\ Repo.st_self s' = self
  /\ h_local h = true
  /\ ((Repo.st_log s' =
       Repo.st_log s ++ [Repo.EvHandleNewLocal (Repo.cachedir self);
                         Repo.EvPerform h]
       /\ forall p, fs_of s' !! p = fs_of s !! p)
      \/ (Repo.repo_gpgcheck self = true
          /\ (exists msg,
                Repo.librepo_perform env h (Repo.st_world s)
                = inl (Repo.LRE_BADGPG env, msg))
          /\ Repo.st_log s' =
             Repo.st_log s ++ [Repo.EvHandleNewLocal (Repo.cachedir self);
                               Repo.EvPerform h; Repo.EvImportRepoKeys;
                               Repo.EvPerform h]
          /\ forall p,
               Py.startswith p (Repo.cachedir self +:+ "/") = true ->
               Py.startswith p (Repo.pubring_dir self +:+ "/") = false ->
               fs_of s' !! p = None))
  /\ (Repo.repo_gpgcheck self = false
      \/ (forall msg, Repo.librepo_perform env h (Repo.st_world s)
                      <> inl (Repo.LRE_BADGPG env, msg)) ->
      exists l, Repo.st_log s' = Repo.st_log s ++ l
                /\ Forall local_event l).
Proof.
  intros Hstrat Hmd Hc self h.
  destruct (try_cache_spec env s s' (inr false) Hmd Hc) as (_ & _ & _ & Hs).
  pose proof (try_cache_false_trace env s s' Hmd Hc) as Ht.
  fold self h in Ht.
  split; [|split; [exact Hs|split; [reflexivity|split; [exact Ht|]]]].
  - unfold Repo.load. run. rewrite Hmd, Hc. run. rewrite Hs, Hstrat.
    reflexivity.
  - intros Hoff.
    destruct Ht as [(Hl & _)|(Hg & (msg & Hp) & _)].
    + eexists. split; [exact Hl|].
      constructor; [exact I|]. constructor; [reflexivity|]. constructor.
    + exfalso. destruct Hoff as [Hoff|Hoff];
        [fold self in Hoff; congruence | exact (Hoff msg Hp)].
Qed.

Lemma load_only_cache_without_cache_witness :
  exists s',
    Repo.load (Example.env [])
      (Example.state
         (Example.repo None None None false 60 SYNC_ONLY_CACHE false None)
         ∅ 1000)
    = (inl (RepoError "Cache-only enabled but no cache for 'r'"), s')
    /\ Forall local_event (Repo.st_log s').
Proof.
  destruct (Repo._try_cache (Example.env [])
              (Example.state
                 (Example.repo None None None false 60 SYNC_ONLY_CACHE false
                               None) ∅ 1000)) as [r s'] eqn:E.
  pose proof E as E'. vm_compute in E'. injection E' as <- <-.
  destruct (load_only_cache_without_cache (Example.env [])
              (Example.state
                 (Example.repo None None None false 60 SYNC_ONLY_CACHE false
                               None) ∅ 1000) _ eq_refl eq_refl E)
    as (Hload & _ & _ & _ & Hoff).
  destruct (Hoff (or_introl eq_refl)) as (l & Hl & Hall).
  eexists. split; [exact Hload|]. rewrite Hl. exact Hall.
Defined.

(** C2, as stated, fails: in cache-only mode with the signature check
    on, a cache on disk and a local handle that reports a bad signature,
    [load] raises the cache-only error after the cache directory was
    cleared and the keys were imported, which is no call that stays on the
    machine. *)
Lemma load_only_cache_imports_keys :
  exists s' h,
    Repo.load Example.env_badgpg
      (Example.state
         (Example.repo None None None true 60 SYNC_ONLY_CACHE false None)
         Example.cache_fs 1000)
    = (inl (RepoError "Cache-only enabled but no cache for 'r'"), s')
    /\ Repo.st_log s' =
       [Repo.EvHandleNewLocal "/c/r"; Repo.EvPerform h;
        Repo.EvImportRepoKeys; Repo.EvPerform h]
    /\ ~ Forall local_event (Repo.st_log s')
    /\ Example.cache_fs !! "/c/r/repodata/repomd.xml"
       = Some (mkFile "old repomd" 100)
    /\ fs_of s' !! "/c/r/repodata/repomd.xml" = None
    /\ fs_of s' !! "/c/r/pubring/key" = Some (mkFile "signing key" 1000).
Proof.
  eexists. eexists.
  split; [vm_compute; reflexivity|].
  split; [reflexivity|].
  split.
  - cbn [Repo.st_log]. intros H.
    apply Forall_cons in H as [_ H]. apply Forall_cons in H as [_ H].
    apply Forall_cons in H as [H _]. exact H.
  - split; [reflexivity|]. split; reflexivity.
Qed.

(** ** Forced expiry *)

Lemma md_expire_cache_fields (self : Repo.t) :
  Repo._expired (Repo.md_expire_cache self) = true
  /\ Repo.metadata (Repo.md_expire_cache self) = Repo.metadata self
  /\ Repo.metadata_expire (Repo.md_expire_cache self)
     = Repo.metadata_expire self.
Proof. destruct self; repeat split; reflexivity. Qed.

(** [metadata_expire_in] on a repository that holds a snapshot. *)
Lemma metadata_expire_in_loaded (env : Repo.Env) (s : Repo.State)
    (md : Metadata.t) (age : Z) :
  Repo.metadata (Repo.st_self s) = Some md ->
  Repo.metadata_expire (Repo.st_self s) <> -1 ->
  Metadata.age md (Repo.st_world s) = inr age ->
  Repo.metadata_expire_in env s =
    (inr (true,
          Some (let expiration := Repo.metadata_expire (Repo.st_self s) - age in
                if Repo._expired (Repo.st_self s) then Z.min 0 expiration
                else expiration)), s).
Proof.
  intros Hmd Hne Hage. unfold Repo.metadata_expire_in. run.
  rewrite Hmd. run. rewrite Hmd.
  destruct (Repo.metadata_expire (Repo.st_self s) =? -1) eqn:E;
    [apply Z.eqb_eq in E; contradiction|].
  run. rewrite Hage. run. reflexivity.
Qed.

(** C10. After [md_expire_cache], on a repository with cached metadata
    (held in memory, or loaded by [_try_cache]) whose [metadata_expire] is
    not -1 and whose snapshot age can be read, [metadata_expire_in] returns
    [(True, e)] with [e = min(0, metadata_expire - age)]: at most 0, and 0
    when the time-based expiry has not elapsed yet. *)
Theorem metadata_expire_in_after_expire_cache (env : Repo.Env)
    (s s1 : Repo.State) (md : Metadata.t) (age : Z) :
  let s0 := Repo.mkState (Repo.md_expire_cache (Repo.st_self s))
                         (Repo.st_world s) (Repo.st_log s) in
  (Repo.metadata (Repo.st_self s) = Some md /\ s1 = s0)
  \/ (Repo.metadata (Repo.st_self s) = None
      /\ Repo._try_cache env s0 = (inr true, s1)
      /\ Repo.metadata (Repo.st_self s1) = Some md) ->
  Repo.metadata_expire (Repo.st_self s) <> -1 ->
  Metadata.age md (Repo.st_world s1) = inr age ->
  Repo.metadata_expire_in env s0 =
    (inr (true, Some (Z.min 0 (Repo.metadata_expire (Repo.st_self s) - age))),
     s1)
  /\ Z.min 0 (Repo.metadata_expire (Repo.st_self s) - age) <= 0
  /\ (age < Repo.metadata_expire (Repo.st_self s) ->
      Z.min 0 (Repo.metadata_expire (Repo.st_self s) - age) = 0).
Proof.
  intros s0 Hcached Hne Hage.
  destruct (md_expire_cache_fields (Repo.st_self s)) as (He0 & Hm0 & Hx0).
  split; [|split; lia].
  destruct Hcached as [[Hmd ->]|(Hmd & Hc & Hmd1)].
  - rewrite (metadata_expire_in_loaded env s0 md age).
    + unfold s0. cbn [Repo.st_self]. rewrite He0, Hx0. reflexivity.
    + unfold s0. cbn [Repo.st_self]. rewrite Hm0. exact Hmd.
    + unfold s0. cbn [Repo.st_self]. rewrite Hx0. exact Hne.
    + exact Hage.
  - assert (Hmd0 : Repo.metadata (Repo.st_self s0) = None).
    { unfold s0. cbn [Repo.st_self]. rewrite Hm0. exact Hmd. }
    destruct (try_cache_spec env s0 s1 (inr true) Hmd0 Hc)
      as (_ & _ & _ & md' & b & f & w & _ & Hs1 & Hb & _).
    assert (Hb' : b = true).
    { apply Hb. unfold s0. cbn [Repo.st_self]. exact He0. }
    subst b.
    assert (He1 : Repo._expired (Repo.st_self s1) = true).
    { rewrite Hs1. destruct (Repo.st_self s0); reflexivity. }
    assert (Hx1 : Repo.metadata_expire (Repo.st_self s1)
                  = Repo.metadata_expire (Repo.st_self s)).
    { rewrite Hs1. unfold s0. cbn [Repo.st_self].
      destruct (Repo.st_self s); reflexivity. }
    unfold Repo.metadata_expire_in. run. rewrite Hmd0. run.
    rewrite Hc. run. rewrite Hmd1, Hx1.
    destruct (Repo.metadata_expire (Repo.st_self s) =? -1) eqn:E;
      [apply Z.eqb_eq in E; contradiction|].
    run. rewrite Hage. run. rewrite He1. reflexivity.
Qed.

Lemma metadata_expire_in_after_expire_cache_witness :
  Repo.metadata_expire_in (Example.env [])
    (Example.state
       (Repo.md_expire_cache
          (Example.repo None None None false 60 SYNC_TRY_CACHE false
                        (Some Example.snapshot)))
       Example.cache_fs 130)
  = (inr (true, Some 0),
     Example.state
       (Repo.md_expire_cache
          (Example.repo None None None false 60 SYNC_TRY_CACHE false
                        (Some Example.snapshot)))
       Example.cache_fs 130).
Proof.
  exact (proj1 (metadata_expire_in_after_expire_cache (Example.env [])
                  (Example.state
                     (Example.repo None None None false 60 SYNC_TRY_CACHE false
                                   (Some Example.snapshot))
                     Example.cache_fs 130)
                  _ Example.snapshot 30
                  (or_introl (conj eq_refl eq_refl))
                  ltac:(discriminate) eq_refl)).
Defined.

(** ** Revive *)


(** [_try_revive] answers [revive_result]; it leaves the repository object
    alone, touches no file outside its temporary directory, and builds and
    performs handles on that directory only. *)
Lemma try_revive_eval (env : Repo.Env) (s : Repo.State) :
  exists s',
    Repo._try_revive env s = (revive_result env s, s')
    /\ Repo.st_self s' = Repo.st_self s
    /\ w_now (Repo.st_world s') = w_now (Repo.st_world s)
    /\ (forall p, under (Repo.mkdtemp env (Repo.st_world s)) p = false ->
                  fs_of s' !! p = fs_of s !! p)
    /\ exists l, Repo.st_log s' = Repo.st_log s ++ l
                 /\ Forall (fetch_event (Repo.mkdtemp env (Repo.st_world s))) l.
Proof.
  unfold Repo._try_revive, revive_result. run.
  destruct (Repo.metadata (Repo.st_self s)) as [md|].
  2:{ exists s. repeat split; auto. exists []. rewrite app_nil_r. auto. }
  destruct (Py.opt_truthy (Repo.metalink (Repo.st_self s))) eqn:Eml;
    cbn [negb].
  2:{ exists s. repeat split; auto. exists []. rewrite app_nil_r. auto. }
  destruct (Metadata.repo_dct md !! "repomd") as [fn|].
  2:{ exists s. repeat split; auto. exists []. rewrite app_nil_r. auto. }
  unfold Repo.tmpdir. run.
  set (tmp := Repo.mkdtemp env (Repo.st_world s)).
  unfold fs_of.
  destruct (w_fs (Repo.st_world s) !! fn) as [repomd|]; run.
  2:{ eexists. split; [reflexivity|].
      cbn [Repo.st_self Repo.st_world Repo.st_log w_now w_fs].
      repeat split; auto.
      - intros p Hp. apply rm_rf_frame. exact Hp.
      - exists []. rewrite app_nil_r. auto. }
  unfold Repo.new_remote, revive_handle. run. fold tmp.
  destruct (Repo._handle_new_remote env (Repo.st_self s) (Some tmp) true)
    as [e|h0] eqn:Eh; run.
  { eexists. split; [reflexivity|].
    cbn [Repo.st_self Repo.st_world Repo.st_log w_now w_fs].
    repeat split; auto.
    - intros p Hp. apply rm_rf_frame. exact Hp.
    - eexists. split; [reflexivity|].
      constructor; [reflexivity | constructor]. }
  match goal with
  | |- context [Repo._Handle_perform env ?hh ?st] =>
      set (h := hh); set (s1 := st);
      destruct (Repo._Handle_perform env h s1) as [r2 s2] eqn:E2
  end.
  apply perform_spec in E2. destruct E2 as (Hs2 & Hl2 & Hn2 & Hf2 & Hr2).
  unfold s1 in Hs2, Hl2, Hn2, Hf2, Hr2.
  cbn [Repo.st_self Repo.st_world Repo.st_log fs_of] in Hs2, Hl2, Hn2, Hf2, Hr2.
  assert (Hd : h_destdir h = Some tmp).
  { destruct (handle_new_remote_fields _ _ _ _ _ Eh) as (Hd & _).
    unfold h. destruct h0; cbn in *; exact Hd. }
  assert (Hframe : forall p, under tmp p = false ->
             rm_rf tmp (w_fs (Repo.st_world s2)) !! p
             = w_fs (Repo.st_world s) !! p).
  { intros p Hp. rewrite rm_rf_frame by exact Hp.
    apply Hf2. right. rewrite Hd. intros d [= <-].
    apply under_startswith. exact Hp. }
  assert (Hlog : Forall (fetch_event tmp)
                   [Repo.EvHandleNewRemote (Some tmp) true; Repo.EvPerform h]).
  { constructor; [reflexivity|]. constructor; [exact Hd | constructor]. }
  destruct r2 as [e|[res h']].
  - destruct Hr2 as (code & msg & Hp & ->). rewrite Hp.
    eexists. split; [reflexivity|].
    cbn [Repo.st_self Repo.st_world Repo.st_log w_now w_fs].
    split; [exact Hs2|]. split; [exact Hn2|]. split; [exact Hframe|].
    eexists. split; [rewrite Hl2, <- app_assoc; reflexivity | exact Hlog].
  - destruct Hr2 as (f & Hp & -> & ->). rewrite Hp.
    cbn [snd]. unfold revive_decision.
    replace (h_metalink (set_mirrors (fetched_mirrors f)
                           (set_metalink (fetched_metalink f) h)))
      with (fetched_metalink f) by reflexivity.
    assert (Hfin : forall (x : Exc + bool), exists s',
               (x, Repo.mkState (Repo.st_self s2)
                     (with_fs (rm_rf tmp) (Repo.st_world s2))
                     (Repo.st_log s2)) = (x, s')
               /\ Repo.st_self s' = Repo.st_self s
               /\ w_now (Repo.st_world s') = w_now (Repo.st_world s)
               /\ (forall p, under tmp p = false ->
                             w_fs (Repo.st_world s') !! p
                             = w_fs (Repo.st_world s) !! p)
               /\ exists l, Repo.st_log s' = Repo.st_log s ++ l
                            /\ Forall (fetch_event tmp) l).
    { intros x. eexists. split; [reflexivity|].
      cbn [Repo.st_self Repo.st_world Repo.st_log w_now w_fs with_fs].
      split; [exact Hs2|]. split; [exact Hn2|]. split; [exact Hframe|].
      eexists. split; [rewrite Hl2, <- app_assoc; reflexivity | exact Hlog]. }
    destruct (fetched_metalink f) as [ml|]; run; [|apply Hfin].
    destruct (length (List.filter Repo.recognized (ml_hashes ml)) <? 1)%nat;
      run; [apply Hfin|].
    destruct (Repo.check_hashes _ _) as [e|b]; run; apply Hfin.
Qed.

Lemma hexdigests_lookup (env : Repo.Env) (algos : list string)
    (data algo : string) :
  In algo algos ->
  Repo.hexdigests env algos data !! algo = Some (Repo.hexdigest env algo data).
Proof.
  unfold Repo.hexdigests. induction algos as [|a algos IH]; [intros []|].
  intros Hin. cbn [List.map]. rewrite list_to_map_cons. cbn [fst snd].
  rewrite lookup_insert.
  destruct (decide (a = algo)) as [->|Hne]; [reflexivity|].
  apply IH. destruct Hin as [->|Hin]; [contradiction | exact Hin].
Qed.

Lemma check_hashes_agree (env : Repo.Env) (algos : list string)
    (data : string) (hashes : list (string * string)) :
  (forall hsh, In hsh hashes -> In (fst hsh) algos) ->
  Repo.check_hashes (Repo.hexdigests env algos data) hashes
  = inr (hashes_agree env data hashes).
Proof.
  induction hashes as [|[algo digest] hashes IH]; intros Hin; [reflexivity|].
  cbn [Repo.check_hashes hashes_agree forallb fst snd].
  rewrite hexdigests_lookup by (apply (Hin (algo, digest)); left; reflexivity).
  destruct (String.eqb (Repo.hexdigest env algo data) digest); cbn [negb andb].
  - apply IH. intros hsh H. apply Hin. right. exact H.
  - reflexivity.
Qed.

Lemma revive_decision_bool (env : Repo.Env) (f : Fetched) (data : string) :
  revive_decision env f data =
  inr match fetched_metalink f with
      | None => false
      | Some ml =>
          let hashes := List.filter Repo.recognized (ml_hashes ml) in
          negb (length hashes <? 1)%nat && hashes_agree env data hashes
      end.
Proof.
  unfold revive_decision. destruct (fetched_metalink f) as [ml|]; [|reflexivity].
  cbv zeta. destruct (length _ <? 1)%nat; [reflexivity|].
  cbn [negb andb]. apply check_hashes_agree.
  intros hsh H. apply in_map. exact H.
Qed.

Lemma recognized_In (hsh : string * string) :
  Repo.recognized hsh = true <-> In (fst hsh) _RECOGNIZED_CHKSUMS.
Proof.
  unfold Repo.recognized. rewrite bool_decide_eq_true, list_elem_of_In.
  reflexivity.
Qed.

Lemma hashes_agree_spec (env : Repo.Env) (data : string)
    (hashes : list (string * string)) :
  hashes_agree env data hashes = true <->
  forall algo digest, In (algo, digest) hashes ->
                      Repo.hexdigest env algo data = digest.
Proof.
  unfold hashes_agree. rewrite forallb_forall. split.
  - intros H algo digest Hin. apply String.eqb_eq. exact (H _ Hin).
  - intros H [algo digest] Hin. apply String.eqb_eq. exact (H _ _ Hin).
Qed.

(** The decision is [True] exactly when the descriptor has a metalink with
    a hash of a recognized algorithm and all such hashes match. *)
Lemma revive_decision_true (env : Repo.Env) (f : Fetched) (data : string) :
  revive_decision env f data = inr true <->
  exists ml,
    fetched_metalink f = Some ml
    /\ (exists hsh, In hsh (ml_hashes ml) /\ In (fst hsh) _RECOGNIZED_CHKSUMS)
    /\ forall algo digest,
         In (algo, digest) (ml_hashes ml) -> In algo _RECOGNIZED_CHKSUMS ->
         Repo.hexdigest env algo data = digest.
Proof.
  rewrite revive_decision_bool. split.
  - intros [= H]. destruct (fetched_metalink f) as [ml|]; [|discriminate].
    cbv zeta in H. apply andb_true_iff in H. destruct H as [Hlen Hag].
    exists ml. split; [reflexivity|]. split.
    + destruct (List.filter Repo.recognized (ml_hashes ml)) as [|hsh l] eqn:E;
        [discriminate|].
      assert (Hin : In hsh (List.filter Repo.recognized (ml_hashes ml)))
        by (rewrite E; left; reflexivity).
      apply filter_In in Hin. destruct Hin as [Hin Hr].
      exists hsh. split; [exact Hin | apply recognized_In; exact Hr].
    + intros algo digest Hin Hr.
      apply (proj1 (hashes_agree_spec env data _) Hag).
      apply filter_In. split; [exact Hin|].
      apply recognized_In. exact Hr.
  - intros (ml & -> & (hsh & Hin & Hr) & Hall). f_equal. cbv zeta.
    apply andb_true_iff. split.
    + assert (Hf : In hsh (List.filter Repo.recognized (ml_hashes ml))).
      { apply filter_In. split; [exact Hin | apply recognized_In; exact Hr]. }
      destruct (List.filter Repo.recognized (ml_hashes ml)); [destruct Hf|].
      reflexivity.
    + apply hashes_agree_spec. intros algo digest Hf.
      apply filter_In in Hf. destruct Hf as [Hin' Hr'].
      apply Hall; [exact Hin'|]. apply (proj1 (recognized_In (algo, digest))).
      exact Hr'.
Qed.

(** [revive_result] is [True] exactly under the conditions of revive. *)
Lemma revive_result_true (env : Repo.Env) (s : Repo.State) (md : Metadata.t) :
  Repo.metadata (Repo.st_self s) = Some md ->
  revive_result env s = inr true <-> revive_conditions env s md.
Proof.
  intros Hmd. unfold revive_result, revive_conditions. rewrite Hmd. split.
  - destruct (Py.opt_truthy (Repo.metalink (Repo.st_self s))); cbn [negb];
      [|discriminate].
    destruct (Metadata.repo_dct md !! "repomd") as [fn|] eqn:Efn;
      [|discriminate].
    destruct (fs_of s !! fn) as [repomd|] eqn:Efs; [|discriminate].
    destruct (revive_handle env s) as [e|h] eqn:Eh; [discriminate|].
    destruct (Repo.librepo_perform env h (Repo.st_world s)) as [[c m]|f] eqn:Ep;
      [discriminate|].
    intros H. apply revive_decision_true in H.
    destruct H as (ml & Hml & Hex & Hall).
    split; [reflexivity|]. exists h, f, ml, fn, repomd.
    split; [reflexivity|]. split; [exact Ep|]. split; [exact Hml|].
    split; [exact Hex|]. split; [reflexivity|]. split; [exact Efs|exact Hall].
  - intros (-> & h & f & ml & fn & repomd & -> & -> & Hml & Hex & -> & -> & Hall).
    cbn [negb]. apply revive_decision_true. exists ml. auto.
Qed.

(** When the descriptor can be compared, [_try_revive] does not raise. *)
Lemma revive_result_bool (env : Repo.Env) (s : Repo.State) (md : Metadata.t) :
  Repo.metadata (Repo.st_self s) = Some md ->
  revive_can_compare env s md ->
  exists b, revive_result env s = inr b.
Proof.
  intros Hmd Hcan. unfold revive_result. rewrite Hmd.
  destruct (Py.opt_truthy (Repo.metalink (Repo.st_self s))) eqn:E; cbn [negb];
    [|eexists; reflexivity].
  destruct (Hcan E) as (h & f & fn & repomd & -> & -> & -> & ->).
  rewrite revive_decision_bool. eexists; reflexivity.
Qed.

Lemma load_with_snapshot (env : Repo.Env) (s : Repo.State) (md : Metadata.t) :
  Repo.metadata (Repo.st_self s) = Some md ->
  Repo.sync_strategy (Repo.st_self s) <> SYNC_ONLY_CACHE ->
  Repo.sync_strategy (Repo.st_self s) <> SYNC_LAZY ->
  Repo._expired (Repo.st_self s) = true ->
  Repo.load env s = Repo.load_sync env s.
Proof.
  intros Hmd Ho Hl He. unfold Repo.load. run. rewrite Hmd. run.
  rewrite He.
  destruct (Repo.sync_strategy (Repo.st_self s) =? SYNC_ONLY_CACHE) eqn:E1;
    [apply Z.eqb_eq in E1; contradiction|].
  destruct (Repo.sync_strategy (Repo.st_self s) =? SYNC_LAZY) eqn:E2;
    [apply Z.eqb_eq in E2; contradiction|].
  reflexivity.
Qed.

Lemma load_sync_declined (env : Repo.Env) (s s1 : Repo.State) :
  Repo._try_revive env s = (inr false, s1) ->
  Repo.load_sync env s = refetch_path env (Repo.st_self s) s1.
Proof.
  intros H. unfold Repo.load_sync, refetch_path. run. rewrite H. run.
  reflexivity.
Qed.

Lemma load_cache_loaded (env : Repo.Env) (s s0 : Repo.State) (md : Metadata.t) :
  Repo.metadata (Repo.st_self s) = None ->
  Repo._try_cache env s = (inr true, s0) ->
  Repo.metadata (Repo.st_self s0) = Some md ->
  Repo.load env s = Repo.load env s0.
Proof.
  intros Hn Hc Hmd. unfold Repo.load. run. rewrite Hn, Hc, Hmd. run.
  reflexivity.
Qed.

Lemma load_sync_raised (env : Repo.Env) (s s1 : Repo.State) (e : Exc) :
  Repo._try_revive env s = (inl e, s1) ->
  Repo.load_sync env s = (inl (Repo.sync_error (Repo.st_self s) e), s1).
Proof.
  intros H. unfold Repo.load_sync. run. rewrite H.
  destruct e; reflexivity.
Qed.

Lemma revive_result_fetch_error (env : Repo.Env) (s : Repo.State)
    (md : Metadata.t) (h : Handle) (repomd_fn : string) (repomd : File)
    (code : Z) (msg : option string) :
  Repo.metadata (Repo.st_self s) = Some md ->
  Py.opt_truthy (Repo.metalink (Repo.st_self s)) = true ->
  Metadata.repo_dct md !! "repomd" = Some repomd_fn ->
  fs_of s !! repomd_fn = Some repomd ->
  revive_handle env s = inr h ->
  Repo.librepo_perform env h (Repo.st_world s) = inl (code, msg) ->
  revive_result env s
  = inl (DetailedLibrepoError code msg (Repo._Handle_source h)).
Proof.
  intros Hmd Hml Hfn Hfile Hh Hp. unfold revive_result.
  rewrite Hmd, Hml. cbn [negb]. rewrite Hfn, Hfile, Hh, Hp. reflexivity.
Qed.

(** C1. For a repository with a snapshot, held in memory or loaded from the
    cache by this call: [_try_revive] answers [True] exactly under the
    conditions of revive (a metalink is configured, the fetched descriptor
    has a metalink with a hash of a recognized algorithm, and every such hash
    equals the digest of the cached repomd file); when [load] gets as
    far as revive (the strategy is neither cache-only nor lazy and the
    snapshot is expired) and the descriptor can be compared, a failing
    condition makes [_try_revive] answer [False] and [load] go on with the
    full refetch; and when the fetch of the descriptor raises instead,
    [load] stops where [_try_revive] stopped, with the synchronization
    error and without a refetch. *)
Theorem revive_only_when_hashes_match (env : Repo.Env) (s s0 : Repo.State)
    (md : Metadata.t) :
  (Repo.metadata (Repo.st_self s) = Some md /\ s0 = s)
  \/ (Repo.metadata (Repo.st_self s) = None
      /\ Repo._try_cache env s = (inr true, s0)
      /\ Repo.metadata (Repo.st_self s0) = Some md) ->
  Repo.load env s = Repo.load env s0
  /\ ((exists s', Repo._try_revive env s0 = (inr true, s'))
      <-> revive_conditions env s0 md)
  /\ (Repo.sync_strategy (Repo.st_self s0) <> SYNC_ONLY_CACHE ->
      Repo.sync_strategy (Repo.st_self s0) <> SYNC_LAZY ->
      Repo._expired (Repo.st_self s0) = true ->
      revive_can_compare env s0 md ->
      ~ revive_conditions env s0 md ->
      exists s1,
        Repo._try_revive env s0 = (inr false, s1)
        /\ Repo.load env s = refetch_path env (Repo.st_self s0) s1)
  /\ (Repo.sync_strategy (Repo.st_self s0) <> SYNC_ONLY_CACHE ->
      Repo.sync_strategy (Repo.st_self s0) <> SYNC_LAZY ->
      Repo._expired (Repo.st_self s0) = true ->
      Py.opt_truthy (Repo.metalink (Repo.st_self s0)) = true ->
      forall h repomd_fn repomd code msg,
        Metadata.repo_dct md !! "repomd" = Some repomd_fn ->
        fs_of s0 !! repomd_fn = Some repomd ->
        revive_handle env s0 = inr h ->
        Repo.librepo_perform env h (Repo.st_world s0) = inl (code, msg) ->
        exists s1,
          Repo._try_revive env s0
          = (inl (DetailedLibrepoError code msg (Repo._Handle_source h)), s1)
          /\ Repo.load env s
             = (inl (RepoError
                       ("Failed to synchronize cache for repo '"
                        +:+ Repo.id_ (Repo.st_self s0) +:+ "' from '"
                        +:+ Repo._Handle_source h +:+ "': "
                        +:+ Py.str_of_opt msg)), s1)).
Proof.
  intros Hsnap.
  assert (Hmd0 : Repo.metadata (Repo.st_self s0) = Some md).
  { destruct Hsnap as [[H ->]|(_ & _ & H)]; exact H. }
  assert (Hload : Repo.load env s = Repo.load env s0).
  { destruct Hsnap as [[_ ->]|(Hn & Hc & _)]; [reflexivity|].
    exact (load_cache_loaded env s s0 md Hn Hc Hmd0). }
  destruct (try_revive_eval env s0) as (s1 & Hrun & _).
  split; [exact Hload|]. split; [|split].
  - rewrite <- (revive_result_true env s0 md Hmd0). split.
    + intros (s' & H). rewrite Hrun in H. congruence.
    + intros H. exists s1. rewrite Hrun, H. reflexivity.
  - intros Ho Hl He Hcan Hnot.
    destruct (revive_result_bool env s0 md Hmd0 Hcan) as [b Hb].
    destruct b.
    + exfalso. apply Hnot. apply (revive_result_true env s0 md Hmd0). exact Hb.
    + exists s1. rewrite Hb in Hrun. split; [exact Hrun|].
      rewrite Hload, (load_with_snapshot env s0 md Hmd0 Ho Hl He).
      apply load_sync_declined. exact Hrun.
  - intros Ho Hl He Hml h repomd_fn repomd code msg Hfn Hfile Hh Hp.
    rewrite (revive_result_fetch_error env s0 md h repomd_fn repomd code msg
               Hmd0 Hml Hfn Hfile Hh Hp) in Hrun.
    exists s1. split; [exact Hrun|].
    rewrite Hload, (load_with_snapshot env s0 md Hmd0 Ho Hl He).
    rewrite (load_sync_raised env s0 s1 _ Hrun). reflexivity.
Qed.

Lemma revive_only_when_hashes_match_witness :
  exists s1,
    Repo._try_revive (Example.env [("md5", "x"); ("sha256", "corrupted")])
      (Example.state
         (Example.repo (Some "http://h/metalink") None None false 60
                       SYNC_TRY_CACHE true (Some Example.snapshot))
         Example.cache_fs 1000)
    = (inr false, s1)
    /\ Repo.load (Example.env [("md5", "x"); ("sha256", "corrupted")])
         (Example.state
            (Example.repo (Some "http://h/metalink") None None false 60
                          SYNC_TRY_CACHE true (Some Example.snapshot))
            Example.cache_fs 1000)
       = refetch_path (Example.env [("md5", "x"); ("sha256", "corrupted")])
           (Example.repo (Some "http://h/metalink") None None false 60
                         SYNC_TRY_CACHE true (Some Example.snapshot))
           s1.
Proof.
  apply (proj1 (proj2 (proj2 (revive_only_when_hashes_match
                         (Example.env [("md5", "x"); ("sha256", "corrupted")])
                         (Example.state
                            (Example.repo (Some "http://h/metalink") None None
                                          false 60 SYNC_TRY_CACHE true
                                          (Some Example.snapshot))
                            Example.cache_fs 1000)
                         _ Example.snapshot
                         (or_introl (conj eq_refl eq_refl)))))).
  - discriminate.
  - discriminate.
  - reflexivity.
  - intros _. eexists _, _, _, _.
    split; [reflexivity|]. split; [reflexivity|]. split; reflexivity.
  - intros Hc. apply revive_result_true in Hc; [|reflexivity].
    vm_compute in Hc. discriminate.
Defined.

(** C1, as stated, fails: on a repository with a metalink and an
    expired snapshot whose origin is out of reach, the fetched descriptor
    fulfils none of the conditions, and yet [load] does not go on with the
    full refetch: [_try_revive] raises, and [load] ends with the
    synchronization error after the one handle of revive. *)
Lemma load_revive_fetch_error_no_refetch :
  exists s' h,
    ~ revive_conditions Example.env_offline
        (Example.state
           (Example.repo (Some "http://h/metalink") None None false 60
                         SYNC_TRY_CACHE true (Some Example.snapshot))
           Example.cache_fs 1000)
        Example.snapshot
    /\ (forall s1,
          Repo._try_revive Example.env_offline
            (Example.state
               (Example.repo (Some "http://h/metalink") None None false 60
                             SYNC_TRY_CACHE true (Some Example.snapshot))
               Example.cache_fs 1000)
          <> (inr false, s1))
    /\ Repo.load Example.env_offline
         (Example.state
            (Example.repo (Some "http://h/metalink") None None false 60
                          SYNC_TRY_CACHE true (Some Example.snapshot))
            Example.cache_fs 1000)
       = (inl (RepoError
                 "Failed to synchronize cache for repo 'r' from 'http://h/metalink': Timeout was reached"),
          s')
    /\ Repo.st_log s' =
       [Repo.EvHandleNewRemote (Some "/t") true; Repo.EvPerform h]
    /\ h_fetchmirrors h = true.
Proof.
  eexists. eexists. split; [|split; [|split; [|split]]].
  - intros (_ & h & f & ml & fn & repomd & Hh & Hp & _).
    vm_compute in Hh. injection Hh as <-. vm_compute in Hp. discriminate.
  - intros s1 H. vm_compute in H. discriminate.
  - vm_compute. reflexivity.
  - reflexivity.
  - reflexivity.
Qed.


(** ** The full refetch *)

Lemma prefix_both (p x y : string) :
  String.prefix x p = true -> String.prefix y p = true ->
  String.prefix x y = true \/ String.prefix y x = true.
Proof.
  revert x y. induction p as [|c p IH]; intros x y Hx Hy.
  - destruct x; [|discriminate]. left. destruct y; reflexivity.
  - destruct x as [|a x]; [left; destruct y; reflexivity|].
    destruct y as [|b y]; [right; reflexivity|].
    cbn [String.prefix] in *.
    destruct (ascii_dec a c) as [->|]; [|discriminate].
    destruct (ascii_dec b c) as [->|]; [|discriminate].
    destruct (ascii_dec c c); [|congruence].
    apply IH; assumption.
Qed.

Lemma disjoint_trees_under (a b p : string) :
  disjoint_trees a b = true -> under b p = true -> under a p = false.
Proof.
  unfold disjoint_trees, under, Py.startswith. intros Hd Hb.
  repeat (apply andb_true_iff in Hd; destruct Hd as [Hd ?]).
  repeat match goal with
         | H : negb _ = true |- _ => apply negb_true_iff in H
         end.
  apply orb_false_iff. apply orb_true_iff in Hb.
  destruct Hb as [Hb|Hb].
  - apply String.eqb_eq in Hb. subst p. split; assumption.
  - split.
    + destruct (String.eqb_spec a p) as [->|]; [congruence | reflexivity].
    + destruct (String.prefix (a +:+ "/") p) eqn:Ea; [|reflexivity].
      destruct (prefix_both _ _ _ Ea Hb); congruence.
Qed.

(** The fetch of the refetch: one remote handle on the temporary
    directory, performed there; the repository object is left alone; files
    change only below the temporary directory and, with the signature check
    on, below the key ring. *)
Lemma load_fetch_spec (env : Repo.Env) (tmp : string) (s s' : Repo.State)
    (r : Exc + Handle) :
  Repo.load_fetch env tmp s = (r, s') ->
  Repo.st_self s' = Repo.st_self s
  /\ w_now (Repo.st_world s') = w_now (Repo.st_world s)
  /\ (exists l,
        Repo.st_log s' =
          Repo.st_log s ++ Repo.EvHandleNewRemote (Some tmp) true :: l
        /\ Forall (fetch_event tmp) l)
  /\ (forall p,
        Py.startswith p (tmp +:+ "/") = false ->
        Repo.repo_gpgcheck (Repo.st_self s) = false
        \/ Py.startswith p (Repo.pubring_dir (Repo.st_self s) +:+ "/") = false ->
        fs_of s' !! p = fs_of s !! p)
  /\ match r with
     | inr h' => h_destdir h' = Some tmp
     | inl _ => True
     end.
Proof.
  unfold Repo.load_fetch, Repo.new_remote. run.
  destruct (Repo._handle_new_remote env (Repo.st_self s) (Some tmp) true)
    as [e|h0] eqn:Eh; run.
  { intros [= <- <-]. cbn [Repo.st_self Repo.st_world Repo.st_log].
    repeat split; auto. exists []. split; [reflexivity | constructor]. }
  destruct (handle_new_remote_fields _ _ _ _ _ Eh) as (Hd & _).
  match goal with
  | |- context [Repo._handle_load env h0 ?st] =>
      set (s1 := st);
      destruct (Repo._handle_load env h0 s1) as [r2 s2] eqn:E2
  end.
  apply handle_load_spec in E2.
  destruct E2 as (Hs & Hn & (l & Hl & Hall) & Hf & Hr).
  unfold s1 in Hs, Hn, Hl, Hf.
  cbn [Repo.st_self Repo.st_world Repo.st_log fs_of] in Hs, Hn, Hl, Hf.
  assert (Hev : Forall (fetch_event tmp) l).
  { eapply Forall_impl; [exact Hall|]. intros e [->| ->]; cbn; auto. }
  assert (Hfr : forall p,
             Py.startswith p (tmp +:+ "/") = false ->
             Repo.repo_gpgcheck (Repo.st_self s) = false
             \/ Py.startswith p (Repo.pubring_dir (Repo.st_self s) +:+ "/")
                = false ->
             fs_of s2 !! p = fs_of s !! p).
  { intros p Hp Hk. apply Hf; [|exact Hk]. rewrite Hd. intros d [= <-].
    exact Hp. }
  assert (Hlog : exists l0,
             Repo.st_log s2 =
               Repo.st_log s ++ Repo.EvHandleNewRemote (Some tmp) true :: l0
             /\ Forall (fetch_event tmp) l0).
  { exists l. split; [rewrite Hl, <- app_assoc; reflexivity | exact Hev]. }
  destruct r2 as [e|[md h']]; run; intros [= <- <-].
  - repeat split; auto.
  - split; [exact Hs|]. split; [exact Hn|]. split; [exact Hlog|].
    split; [exact Hfr|].
    destruct Hr as (f & w & _ & -> & _). cbn. destruct h0; exact Hd.
Qed.

Lemma move_self (src dst : string) (s s' : Repo.State) (r : Exc + unit) :
  Repo.move src dst s = (r, s') -> Repo.st_self s' = Repo.st_self s.
Proof.
  unfold Repo.move. run.
  destruct (shutil_move src dst (w_fs (Repo.st_world s))); run;
    intros [= <- <-]; reflexivity.
Qed.

Lemma replace_metadata_self (handle : Handle) (s s' : Repo.State)
    (r : Exc + unit) :
  Repo._replace_metadata handle s = (r, s') ->
  Repo.st_self s' = Repo.st_self s.
Proof.
  unfold Repo._replace_metadata. run.
  destruct (Repo._Handle_metadata_dir handle) as [e|src]; run;
    [intros [= <- <-]; reflexivity|].
  match goal with
  | |- context [Repo.move ?a ?b ?st] =>
      destruct (Repo.move a b st) as [[e|[]] s1] eqn:E1
  end; apply move_self in E1; cbn [Repo.st_self] in E1;
    [intros [= <- <-]; exact E1|].
  destruct (h_metalink handle).
  - destruct (Repo._Handle_metalink_path handle) as [e|src2]; run;
      [intros [= <- <-]; exact E1|].
    intros E2. apply move_self in E2. congruence.
  - destruct (Py.opt_truthy (h_mirrorlist handle)); run.
    + destruct (Repo._Handle_mirrorlist_path handle) as [e|src2]; run;
        [intros [= <- <-]; exact E1|].
      intros E2. apply move_self in E2. congruence.
    + intros [= <- <-]. exact E1.
Qed.

Lemma refetch_frame (env : Repo.Env) (s s' : Repo.State) (tmp : string) :
  disjoint_trees tmp (Repo.cachedir (Repo.st_self s)) = true ->
  (forall p,
     Py.startswith p (tmp +:+ "/") = false ->
     Repo.repo_gpgcheck (Repo.st_self s) = false
     \/ Py.startswith p (Repo.pubring_dir (Repo.st_self s) +:+ "/") = false ->
     fs_of s' !! p = fs_of s !! p) ->
  cache_unchanged_but_keys (Repo.st_self s) s s'.
Proof.
  intros Hd Hf p Hp Hk. apply Hf; [|exact Hk].
  apply under_startswith. eapply disjoint_trees_under; eassumption.
Qed.

(** C5 (amended). During a full refetch the remote handle is built on the
    temporary directory and performed there, so what is fetched lands
    there; nothing before the replace step is a replace step; and after the
    fetch, after a failed fetch that ends the refetch, and after an
    interruption between the fetch and the swap, every path of the canonical
    cache directory holds what it held before, the key ring of a repository
    with the signature check on apart. *)
Theorem refetch_keeps_cache_until_swap (env : Repo.Env) (s : Repo.State) :
  let self := Repo.st_self s in
  let tmp := Repo.mkdtemp env (Repo.st_world s) in
  disjoint_trees tmp (Repo.cachedir self) = true ->
  (forall r s',
     Repo.load_fetch env tmp s = (r, s') ->
     (exists l, Repo.st_log s' = Repo.st_log s ++ l
                /\ Forall (fetch_event tmp) l)
     /\ cache_unchanged_but_keys self s s'
     /\ match r with
        | inr h => h_destdir h = Some tmp
        | inl e =>
            exists s'',
              Repo.load_refetch env s = (inl e, s'')
              /\ (exists l, Repo.st_log s'' = Repo.st_log s ++ l
                            /\ Forall (fetch_event tmp) l)
              /\ cache_unchanged_but_keys self s s''
        end)
  /\ (forall e r s',
        refetch_interrupted env e s = (r, s') ->
        (exists l, Repo.st_log s' = Repo.st_log s ++ l
                   /\ Forall (fetch_event tmp) l)
        /\ cache_unchanged_but_keys self s s').
Proof.
  intros self tmp Hd.
  assert (Hrm : forall (s1 : Repo.State) (w' : World),
             cache_unchanged_but_keys self s s1 ->
             w_fs w' = rm_rf tmp (fs_of s1) ->
             forall x l, cache_unchanged_but_keys self s
                           (Repo.mkState x w' l)).
  { intros s1 w' H1 Hw x l p Hp Hk. unfold fs_of. cbn [Repo.st_world].
    rewrite Hw, rm_rf_frame; [apply H1; assumption|].
    eapply disjoint_trees_under; eassumption. }
  split.
  - intros r s' Hrun.
    destruct (load_fetch_spec env tmp s s' r Hrun)
      as (Hs & Hn & (l & Hl & Hall) & Hf & Hr).
    assert (Hc : cache_unchanged_but_keys self s s').
    { apply (refetch_frame env s s' tmp Hd Hf). }
    assert (Hlog : exists l0, Repo.st_log s' = Repo.st_log s ++ l0
                              /\ Forall (fetch_event tmp) l0).
    { eexists. split; [exact Hl|]. constructor; [reflexivity | exact Hall]. }
    split; [exact Hlog|]. split; [exact Hc|].
    destruct r as [e|h]; [|exact Hr].
    unfold Repo.load_refetch, Repo.tmpdir. run. fold tmp. rewrite Hrun. run.
    eexists. split; [reflexivity|]. cbn [Repo.st_log]. split; [exact Hlog|].
    eapply Hrm; [exact Hc | reflexivity].
  - intros e r s'. unfold refetch_interrupted, Repo.tmpdir. run. fold tmp.
    destruct (Repo.load_fetch env tmp s) as [r1 s1] eqn:Hrun.
    destruct (load_fetch_spec env tmp s s1 r1 Hrun)
      as (Hs & Hn & (l & Hl & Hall) & Hf & Hr).
    assert (Hc : cache_unchanged_but_keys self s s1).
    { apply (refetch_frame env s s1 tmp Hd Hf). }
    assert (Hlog : exists l0, Repo.st_log s1 = Repo.st_log s ++ l0
                              /\ Forall (fetch_event tmp) l0).
    { eexists. split; [exact Hl|]. constructor; [reflexivity | exact Hall]. }
    destruct r1 as [e1|h]; run; intros [= <- <-]; cbn [Repo.st_log];
      (split; [exact Hlog|]); (eapply Hrm; [exact Hc | reflexivity]).
Qed.

Lemma refetch_keeps_cache_until_swap_witness :
  cache_unchanged_but_keys
    (Example.repo None None None true 60 SYNC_TRY_CACHE true
                  (Some Example.snapshot))
    (Example.state
       (Example.repo None None None true 60 SYNC_TRY_CACHE true
                     (Some Example.snapshot))
       Example.cache_fs 1000)
    (snd (refetch_interrupted (Example.env []) AssertionError
            (Example.state
               (Example.repo None None None true 60 SYNC_TRY_CACHE true
                             (Some Example.snapshot))
               Example.cache_fs 1000))).
Proof.
  destruct (refetch_interrupted (Example.env []) AssertionError
              (Example.state
                 (Example.repo None None None true 60 SYNC_TRY_CACHE true
                               (Some Example.snapshot))
                 Example.cache_fs 1000)) as [r s'] eqn:E.
  exact (proj2 (proj2 (refetch_keeps_cache_until_swap (Example.env [])
                         (Example.state
                            (Example.repo None None None true 60
                                          SYNC_TRY_CACHE true
                                          (Some Example.snapshot))
                            Example.cache_fs 1000)
                         eq_refl) AssertionError r s' E)).
Defined.

(** C5, as stated, fails: with the signature check on and a first attempt
    that reports a bad signature, the fetch imports the signing key into the
    key ring of the canonical cache directory, before any replace step. *)
Lemma refetch_imports_keys_before_swap :
  exists h s',
    Repo.load_fetch (Example.env []) "/t"
      (Example.state
         (Example.repo None None None true 60 SYNC_TRY_CACHE true
                       (Some Example.snapshot))
         Example.cache_fs 1000)
    = (inr h, s')
    /\ Forall (fetch_event "/t") (Repo.st_log s')
    /\ under "/c/r" "/c/r/pubring/key" = true
    /\ Example.cache_fs !! "/c/r/pubring/key" = None
    /\ fs_of s' !! "/c/r/pubring/key" = Some (mkFile "signing key" 1000)
    /\ ~ cache_unchanged
         (Example.repo None None None true 60 SYNC_TRY_CACHE true
                       (Some Example.snapshot))
         (Example.state
            (Example.repo None None None true 60 SYNC_TRY_CACHE true
                          (Some Example.snapshot))
            Example.cache_fs 1000)
         s'.
Proof.
  destruct (Repo.load_fetch (Example.env []) "/t"
              (Example.state
                 (Example.repo None None None true 60 SYNC_TRY_CACHE true
                               (Some Example.snapshot))
                 Example.cache_fs 1000)) as [r s'] eqn:E.
  vm_compute in E. injection E as <- <-.
  eexists _, _. split; [reflexivity|].
  split; [repeat constructor|].
  split; [reflexivity|]. split; [reflexivity|]. split; [reflexivity|].
  intros H. specialize (H "/c/r/pubring/key" eq_refl).
  vm_compute in H. discriminate.
Qed.

(** ** Loading again *)

Lemma reset_age_self (s s' : Repo.State) (r : Exc + unit) :
  Repo.reset_age s = (r, s') -> Repo.st_self s' = Repo.st_self s.
Proof.
  unfold Repo.reset_age. run.
  destruct (Repo.metadata (Repo.st_self s)) as [md|]; run;
    [|intros [= <- <-]; reflexivity].
  destruct (Metadata.reset_age md (Repo.st_world s)); run;
    intros [= <- <-]; reflexivity.
Qed.

Lemma tmpdir_self {A : Type} (env : Repo.Env)
    (body : string -> M Repo.State A) (s s' : Repo.State) (r : Exc + A) :
  (forall tmp r1 s1, body tmp s = (r1, s1) ->
                     Repo.st_self s1 = Repo.st_self s) ->
  Repo.tmpdir env body s = (r, s') ->
  Repo.st_self s' = Repo.st_self s.
Proof.
  intros Hb. unfold Repo.tmpdir. run.
  destruct (body (Repo.mkdtemp env (Repo.st_world s)) s) as [r1 s1] eqn:E.
  apply Hb in E. intros [= <- <-]. exact E.
Qed.

(** A refetch that returns has stored a snapshot and changed nothing else
    of the repository object. *)
Lemma load_refetch_ok (env : Repo.Env) (s s' : Repo.State) :
  Repo.load_refetch env s = (inr tt, s') ->
  exists md, Repo.st_self s' = Repo.set_metadata (Some md) (Repo.st_self s).
Proof.
  unfold Repo.load_refetch.
  unfold bind at 1.
  destruct (Repo.tmpdir env _ s) as [[e|[]] s1] eqn:E1; [discriminate|].
  apply tmpdir_self in E1.
  2:{ intros tmp r1 s2. unfold bind.
      destruct (Repo.load_fetch env tmp s) as [[e|h] s3] eqn:E3;
        apply load_fetch_spec in E3; destruct E3 as (Hs3 & _).
      - intros [= <- <-]. exact Hs3.
      - intros E4. apply replace_metadata_self in E4. congruence. }
  unfold Repo.new_local. run.
  match goal with
  | |- context [Repo._handle_load env ?h ?st] =>
      destruct (Repo._handle_load env h st) as [[e|[md h']] s2] eqn:E2
  end; [discriminate|].
  apply handle_load_spec in E2. destruct E2 as (Hs2 & _).
  cbn [Repo.st_self] in Hs2. run. intros [= <-].
  eexists. cbn [Repo.st_self]. rewrite Hs2, E1. reflexivity.
Qed.

Lemma set_metadata_same (self : Repo.t) (md : Metadata.t) :
  Repo.metadata self = Some md -> Repo.set_metadata (Some md) self = self.
Proof. destruct self. cbn. intros ->. reflexivity. Qed.

(** When the revive-or-refetch part of [load] returns, it returns [True],
    with a snapshot stored and the expired flag cleared. *)
Lemma load_sync_ok (env : Repo.Env) (s s' : Repo.State) (b : bool) :
  Repo.load_sync env s = (inr b, s') ->
  b = true
  /\ exists md,
       Repo.st_self s' =
       Repo.set__expired false (Repo.set_metadata (Some md) (Repo.st_self s)).
Proof.
  unfold Repo.load_sync. run.
  destruct (try_revive_eval env s) as (s1 & Hrev & Hs1 & _).
  rewrite Hrev.
  destruct (revive_result env s) as [e|[|]] eqn:Er.
  - destruct (Repo.is_DetailedLibrepoError e); run; discriminate.
  - destruct (Repo.reset_age s1) as [[e|[]] s2] eqn:E2.
    + destruct (Repo.is_DetailedLibrepoError e); run; discriminate.
    + apply reset_age_self in E2. run. intros [= <- <-]. split; [reflexivity|].
      cbn [Repo.st_self].
      assert (Hmd : exists md, Repo.metadata (Repo.st_self s) = Some md).
      { unfold revive_result in Er.
        destruct (Repo.metadata (Repo.st_self s)) as [md|]; [eauto|discriminate]. }
      destruct Hmd as [md Hmd]. exists md.
      rewrite (set_metadata_same _ _ Hmd). congruence.
  - destruct (Repo.load_refetch env s1) as [[e|[]] s2] eqn:E2.
    + destruct (Repo.is_DetailedLibrepoError e); run; discriminate.
    + apply load_refetch_ok in E2. destruct E2 as [md Hmd].
      run. intros [= <- <-]. split; [reflexivity|].
      exists md. cbn [Repo.st_self]. rewrite Hmd, Hs1. reflexivity.
Qed.

(** A [load] that answers [True] leaves a snapshot in memory and the
    expired flag cleared, and nothing else of the repository changed. *)
Lemma load_true_state (env : Repo.Env) (s s' : Repo.State) :
  Repo.load env s = (inr true, s') ->
  exists md,
    Repo.st_self s' =
    Repo.set__expired false (Repo.set_metadata (Some md) (Repo.st_self s)).
Proof.
  unfold Repo.load. run.
  destruct (Repo.metadata (Repo.st_self s)) as [md0|] eqn:Hmd; run.
  - destruct (_ && _); run; [discriminate|].
    destruct (Repo.sync_strategy (Repo.st_self s) =? SYNC_ONLY_CACHE); run;
      [discriminate|].
    intros H. apply load_sync_ok in H. tauto.
  - destruct (Repo._try_cache env s) as [[e|c] s0] eqn:Ec; [discriminate|].
    pose proof (try_cache_spec env s s0 (inr c) Hmd Ec) as (_ & _ & _ & Hr).
    destruct (_ && _); run; [discriminate|].
    destruct (Repo.sync_strategy (Repo.st_self s0) =? SYNC_ONLY_CACHE); run;
      [discriminate|].
    intros H. apply load_sync_ok in H. destruct H as (_ & md & Hs').
    exists md. rewrite Hs'. destruct c.
    + destruct Hr as (md1 & b1 & _ & _ & _ & -> & _).
      destruct (Repo.st_self s); reflexivity.
    + rewrite Hr. reflexivity.
Qed.

Lemma load_uses_fresh_snapshot (env : Repo.Env) (s : Repo.State)
    (md : Metadata.t) :
  Repo.metadata (Repo.st_self s) = Some md ->
  Repo._expired (Repo.st_self s) = false ->
  Repo.load env s = (inr false, s).
Proof.
  intros Hmd He. unfold Repo.load. run. rewrite Hmd. run. rewrite He.
  cbn [negb]. rewrite orb_true_r. reflexivity.
Qed.

(** C4. After a [load] that fetched (it answered [True]), on a repository
    whose [metadata_expire] is -1, every later [load] answers [False],
    whatever the world it runs in (the clock and the files, hence the age of
    the snapshot), and leaves the repository as it is; and the expiry
    computation, run on that repository, leaves the expired flag [False]. *)
Theorem load_never_expires_after_fetch (env : Repo.Env) (s s1 : Repo.State) :
  Repo.metadata_expire (Repo.st_self s) = -1 ->
  Repo.load env s = (inr true, s1) ->
  (forall worlds,
     load_each env (Repo.st_self s1) worlds
     = List.map (fun _ => inr false) worlds)
  /\ (forall w log,
        Repo.load env (Repo.mkState (Repo.st_self s1) w log)
        = (inr false, Repo.mkState (Repo.st_self s1) w log))
  /\ (forall w log s2,
        Repo._reset_metadata_expired (Repo.mkState (Repo.st_self s1) w log)
        = (inr tt, s2) ->
        Repo._expired (Repo.st_self s2) = false).
Proof.
  intros Hnever Hload.
  destruct (load_true_state env s s1 Hload) as [md Hs1].
  assert (Hmd : Repo.metadata (Repo.st_self s1) = Some md).
  { rewrite Hs1. destruct (Repo.st_self s); reflexivity. }
  assert (He : Repo._expired (Repo.st_self s1) = false).
  { rewrite Hs1. destruct (Repo.st_self s); reflexivity. }
  assert (Hx : Repo.metadata_expire (Repo.st_self s1) = -1).
  { rewrite Hs1, <- Hnever. destruct (Repo.st_self s); reflexivity. }
  assert (Hone : forall w log,
             Repo.load env (Repo.mkState (Repo.st_self s1) w log)
             = (inr false, Repo.mkState (Repo.st_self s1) w log)).
  { intros w log. apply (load_uses_fresh_snapshot env _ md); assumption. }
  split; [|split; [exact Hone|]].
  - induction worlds as [|w worlds IH]; [reflexivity|].
    cbn [load_each List.map]. rewrite Hone. cbn [fst snd Repo.st_self].
    rewrite IH. reflexivity.
  - intros w log s2 Hr.
    destruct (reset_metadata_expired_spec
                (Repo.mkState (Repo.st_self s1) w log) s2 md (inr tt) Hmd Hr)
      as (_ & _ & _ & Hf).
    cbn [Repo.st_self Repo.st_world] in Hf. specialize (Hf He).
    destruct (Metadata.age md w) as [e|age]; destruct Hf as [Hr' Hs2];
      [discriminate|].
    rewrite Hs2, Hx. destruct (Repo.st_self s1); reflexivity.
Qed.

Lemma load_never_expires_after_fetch_witness :
  load_each (Example.env [])
    (Repo.st_self
       (snd (Repo.load (Example.env [])
               (Example.state
                  (Example.repo None None None false (-1) SYNC_TRY_CACHE false
                                None) ∅ 1000))))
    [Example.world ∅ 2000; Example.world Example.cache_fs 999999]
  = [inr false; inr false].
Proof.
  destruct (Repo.load (Example.env [])
              (Example.state
                 (Example.repo None None None false (-1) SYNC_TRY_CACHE false
                               None) ∅ 1000)) as [r s1] eqn:E.
  assert (Hr : r = inr true).
  { pose proof E as E'. vm_compute in E'. congruence. }
  subst r.
  exact (proj1 (load_never_expires_after_fetch (Example.env [])
                  (Example.state
                     (Example.repo None None None false (-1) SYNC_TRY_CACHE
                                   false None) ∅ 1000)
                  s1 eq_refl E)
           [Example.world ∅ 2000; Example.world Example.cache_fs 999999]).
Defined.

(** * Further properties *)

(** ** The ledger of a batch *)


Section LedgerFacts.

Variable get_handle : Package -> Exc + Handle.
Variable pkgdir_of : Package -> string.
Variable librepo_attr : string -> option Z.
Variable CHECKSUM_UNKNOWN : Z.
Variable librepo_download_packages : list PackageTarget -> BatchOutcome.




End LedgerFacts.








(** ** Building handles *)










(** ** The steps of [load] *)









(** ** What [load] leaves behind *)











(** ** Snapshots *)






(** ** Where a repository keeps its packages *)





(** ** Temporary directories *)




(** ** Repository ids, piece by piece *)






(** ** Swapping the cache *)
















